(** * aucc: keyboard backlight control centre

    A shallow embedding of [aucc/main.py] and [aucc/core/handler.py]:
    the style resolver ([get_light_style_code], [get_code]), the
    [ControlCenter] operations over a [DeviceHandler], and the device
    selection performed by [main].

    Python integers are unbounded, so they are [Z].  Dictionaries are
    association lists in insertion order: the order of [programs] and
    [colours] is the order of the alternatives of [light_style_pattern].
    Exceptions are values of [exn]; a computation that can raise returns
    [exn + A]. *)

From Stdlib Require Import ZArith List String Ascii Bool Lia DecimalString.
Import ListNotations.

Local Open Scope Z_scope.
Local Open Scope string_scope.

(** ** Exceptions *)

(* What the code uses as the key of a dict. *)
Inductive key : Type :=
| IntKey (z : Z)
| StrKey (s : string)
| NoneKey.

Inductive exn : Type :=
| StyleNotFound (style : string)      (* Exception("Error: Style {} not found") *)
| KeyError (k : key)                  (* d[k] where d has no key k *)
| IndexError                          (* l[i] where l is shorter *)
| RecursionError                      (* the interpreter's recursion limit *)
| SystemExit (status : Z)             (* sys.exit(status) *)
| ColorError (name : string).         (* raised by aucc.core.colors *)

Definition result (A : Type) : Type := (exn + A)%type.

Definition ok {A} (a : A) : result A := inr a.
Definition raise {A} (e : exn) : result A := inl e.

Definition rbind {A B} (r : result A) (f : A -> result B) : result B :=
  match r with
  | inl e => inl e
  | inr a => f a
  end.

(** ** Dictionaries *)

Fixpoint assoc {K V} (eqb : K -> K -> bool) (k : K) (d : list (K * V)) : option V :=
  match d with
  | [] => None
  | (k', v) :: d' => if eqb k k' then Some v else assoc eqb k d'
  end.

Definition keys {K V} (d : list (K * V)) : list K := map fst d.

(* d[k] on a dict with integer keys *)
Definition getitem_int {V} (d : list (Z * V)) (k : Z) : result V :=
  match assoc Z.eqb k d with
  | Some v => ok v
  | None => raise (KeyError (IntKey k))
  end.

(* d[k] where k may be None, which is the key of no entry *)
Definition getitem_opt_int {V} (d : list (Z * V)) (k : option Z) : result V :=
  match k with
  | Some z => getitem_int d z
  | None => raise (KeyError NoneKey)
  end.

(* d[k] on a dict with string keys *)
Definition getitem_str {V} (d : list (string * V)) (k : string) : result V :=
  match assoc String.eqb k d with
  | Some v => ok v
  | None => raise (KeyError (StrKey k))
  end.

(* Keyboard brightness has 4 variations 0x08,0x16,0x24,0x32 *)
Definition brightness_map : list (Z * Z) :=
  [ (1, 0x08); (2, 0x16); (3, 0x24); (4, 0x32) ].

Definition programs : list (string * Z) :=
  [ ("breathing",      0x02);
    ("wave",           0x03);
    ("random",         0x04);
    ("reactive",       0x04);
    ("rainbow",        0x05);
    ("ripple",         0x06);
    ("reactiveripple", 0x07);
    ("marquee",        0x09);
    ("fireworks",      0x11);
    ("raindrop",       0x0A);
    ("aurora",         0x0E);
    ("reactiveaurora", 0x0E) ].

Definition colours : list (string * Z) :=
  [ ("r", 0x01);   (* red *)
    ("o", 0x02);   (* orange *)
    ("y", 0x03);   (* yellow *)
    ("g", 0x04);   (* green *)
    ("b", 0x05);   (* blue *)
    ("t", 0x06);   (* teal *)
    ("p", 0x07) ]. (* purple *)

(** ** Regular expressions

    The fragment of Python's [re] that [light_style_pattern] uses, with
    the backtracking semantics of [re.match]: alternatives are tried left
    to right, an optional group is tried before it is skipped, and a later
    failure backtracks into the earlier choices. *)

Module Re.

Inductive regex : Type :=
| Eps                              (* the empty pattern *)
| Lit (s : string)                 (* literal text *)
| Seq (r1 r2 : regex)              (* r1r2 *)
| Alt (r1 r2 : regex)              (* r1|r2 *)
| Group (n : nat) (r : regex)      (* (r), capturing group number n *)
| Opt (r : regex)                  (* r?, greedy *)
| Bol                              (* ^ *)
| Eol.                             (* $ *)

(* The text still to be read, the number of characters already read, and
   the groups captured so far: a group that did not take part is absent,
   which is None in match.groups(). *)
Record mstate : Type := MState {
  rest : string;
  pos : nat;
  caps : list (nat * string)
}.

Fixpoint strip_prefix (p s : string) : option string :=
  match p with
  | EmptyString => Some s
  | String a p' =>
      match s with
      | EmptyString => None
      | String b s' => if Ascii.eqb a b then strip_prefix p' s' else None
      end
  end.

Definition newline : ascii := "010"%char.

(* Without re.MULTILINE, $ matches at the end of the string and just
   before a newline that ends the string. *)
Definition at_eol (s : string) : bool :=
  match s with
  | EmptyString => true
  | String c EmptyString => Ascii.eqb c newline
  | _ => false
  end.

Definition set_cap (n : nat) (v : string) (c : list (nat * string)) : list (nat * string) :=
  (n, v) :: filter (fun e => negb (Nat.eqb (fst e) n)) c.

Definition get_cap (n : nat) (c : list (nat * string)) : option string :=
  assoc Nat.eqb n c.

(* The text read between two states of one match. *)
Definition consumed (before after : mstate) : string :=
  substring 0 (pos after - pos before) (rest before).

Fixpoint run (r : regex) (st : mstate) (k : mstate -> option mstate) : option mstate :=
  match r with
  | Eps => k st
  | Lit l =>
      match strip_prefix l (rest st) with
      | Some s' => k (MState s' (pos st + String.length l) (caps st))
      | None => None
      end
  | Seq r1 r2 => run r1 st (fun st' => run r2 st' k)
  | Alt r1 r2 =>
      match run r1 st k with
      | Some m => Some m
      | None => run r2 st k
      end
  | Group n r1 =>
      run r1 st (fun st' =>
        k (MState (rest st') (pos st') (set_cap n (consumed st st') (caps st'))))
  | Opt r1 =>
      match run r1 st k with
      | Some m => Some m
      | None => k st
      end
  | Bol => if Nat.eqb (pos st) 0 then k st else None
  | Eol => if at_eol (rest st) then k st else None
  end.

(* re.match(pattern, s): the pattern is tried at the start of s only and
   need not reach its end. *)
Definition rmatch (r : regex) (s : string) : option mstate :=
  run r (MState s 0 []) Some.

(* match.groups() of a pattern with two groups *)
Definition groups2 (m : mstate) : option string * option string :=
  (get_cap 1 (caps m), get_cap 2 (caps m)).

(* '|'.join(ks) as a pattern: the alternatives in the order of ks; the
   join of no key is the empty pattern. *)
Fixpoint alternation (ks : list string) : regex :=
  match ks with
  | [] => Eps
  | [k] => Lit k
  | k :: ks' => Alt (Lit k) (alternation ks')
  end.

End Re.

(* "^({})({})?$".format('|'.join(programs.keys()), '|'.join(colours.keys())) *)
Definition light_style_pattern : Re.regex :=
  Re.Seq Re.Bol
    (Re.Seq (Re.Group 1 (Re.alternation (keys programs)))
      (Re.Seq (Re.Opt (Re.Group 2 (Re.alternation (keys colours))))
        Re.Eol)).

(** ** Command frames *)

Definition frame : Type := (Z * Z * Z * Z * Z * Z * Z * Z)%type.

(* Byte  Purpose     Notes
   0     ???         0x08 to issue commands?
   1     ???         0x02 to issue commands? 0x01 appears to switch off lights
   2     Program     The 'effect' in use
   3     Speed       0x0?: 1,2,3,4,5,6,7,8,9,a (fastest to slowest)
   4     Brightness  0x08, 0x16, 0x24, 0x32
   5     Colour      0x0?: 1 red, 2 orange, 3 yellow, 4 green, 5 blue, 6 teal,
                     7 purple, 8 rainbow
   6     Program?    Required to be changed for some effects
   7     save changes (00 for no, 01 for yes) *)
Definition get_code (program speed brightness colour program2 save_changes : Z) : frame :=
  (0x08, 0x02, program, speed, brightness, colour, program2, save_changes).

Definition frame_program (f : frame) : Z :=
  let '(_, _, x, _, _, _, _, _) := f in x.
Definition frame_speed (f : frame) : Z :=
  let '(_, _, _, x, _, _, _, _) := f in x.
Definition frame_brightness (f : frame) : Z :=
  let '(_, _, _, _, x, _, _, _) := f in x.
Definition frame_colour (f : frame) : Z :=
  let '(_, _, _, _, _, x, _, _) := f in x.
Definition frame_program2 (f : frame) : Z :=
  let '(_, _, _, _, _, _, x, _) := f in x.

Definition frame_bytes (f : frame) : list Z :=
  let '(b0, b1, b2, b3, b4, b5, b6, b7) := f in [b0; b1; b2; b3; b4; b5; b6; b7].

(** ** The style resolver *)

(* match = re.match(light_style_pattern, style); match.groups().  Group 1
   takes part in every match, so match[0] is a string. *)
Definition light_style_match (style : string) : option (string * option string) :=
  match Re.rmatch light_style_pattern style with
  | None => None
  | Some m =>
      match Re.groups2 m with
      | (Some program, colour) => Some (program, colour)
      | (None, _) => None
      end
  end.

Definition string_in (s : string) (l : list string) : bool :=
  existsb (String.eqb s) l.

Definition get_light_style_code (style : string) (brightness speed : Z) : result frame :=
  match light_style_match style with
  | None => raise (StyleNotFound style)
  | Some (program, m1) =>
      rbind (getitem_str programs program) (fun program_code =>
      rbind (match m1 with
             | Some (String _ _ as c) => getitem_str colours c
             | _ => ok 0x08 (* Default rainbow colour *)
             end) (fun colour_code =>
      rbind (getitem_int brightness_map brightness) (fun brightness_code =>
      let program2 := 0x00 in
      let '(colour_code, program2) :=
        if String.eqb program "rainbow" then (0x00, program2)
        else if String.eqb program "marquee" then (0x08, program2)
        else if String.eqb program "wave" then (0x00, 0x01)
        else if string_in program ["reactive"; "reactiveaurora"; "fireworks"]
             then (colour_code, 0x01)
        else (colour_code, program2) in
      ok (get_code program_code speed brightness_code colour_code program2 0x00))))
  end.

(* The calls with the defaults of the signature: brightness=3, speed=0x05 *)
Definition default_brightness : Z := 3.
Definition default_speed : Z := 0x05.

(** ** Truthiness

    [if x:] on an optional integer or string: None, 0 and the empty string
    are false. *)

Definition truthy_int (x : option Z) : option Z :=
  match x with
  | Some z => if Z.eqb z 0 then None else Some z
  | None => None
  end.

Definition truthy_str (x : option string) : option string :=
  match x with
  | Some (String _ _ as s) => Some s
  | _ => None
  end.

(** ** The world of one process

    [brightness] is the field [self.brightness] of the one [ControlCenter]
    that [main] creates; [transfers] are the calls made on the USB devices,
    oldest first; [stdout] the lines printed.  An exception leaves the
    world as it was when it was raised. *)

Record usb_device : Type := UsbDevice {
  idVendor : Z;
  idProduct : Z
}.

Inductive usb_call : Type :=
| get_active_configuration (d : usb_device)
| ctrl_transfer (d : usb_device) (bmRequestType bRequest wValue wIndex : Z)
                (payload : list Z)
| write (d : usb_device) (payload : list Z).

Record world : Type := World {
  brightness : option Z;
  transfers : list usb_call;
  stdout : list string
}.

Definition M (A : Type) : Type := world -> result A * world.

Definition ret {A} (a : A) : M A := fun w => (ok a, w).

Definition throw {A} (e : exn) : M A := fun w => (raise e, w).

Definition bind {A B} (c : M A) (f : A -> M B) : M B :=
  fun w =>
    match c w with
    | (inl e, w') => (inl e, w')
    | (inr a, w') => f a w'
    end.

Declare Scope py_scope.
Delimit Scope py_scope with py.
Notation "x <- c ;; k" := (bind c (fun x => k))
  (at level 61, c at next level, right associativity) : py_scope.
Notation "c ;; k" := (bind c (fun _ => k))
  (at level 61, right associativity) : py_scope.
Local Open Scope py_scope.

Definition lift {A} (r : result A) : M A := fun w => (r, w).

Definition get_brightness : M (option Z) := fun w => (ok (brightness w), w).

Definition set_brightness (b : option Z) : M unit :=
  fun w => (ok tt, World b (transfers w) (stdout w)).

Definition usb (c : usb_call) : M unit :=
  fun w => (ok tt, World (brightness w) (transfers w ++ [c])%list (stdout w)).

Definition print (line : string) : M unit :=
  fun w => (ok tt, World (brightness w) (transfers w) (stdout w ++ [line])%list).

(** ** aucc/core/handler.py *)

Record DeviceHandler : Type := MkDeviceHandler {
  _device : usb_device;
  bmRequestType : Z;
  bRequest : Z;
  wValue : Z;
  wIndex : Z
}.

(* DeviceHandler(device): Device.__init__ reads the active configuration
   of the device and looks its endpoints up in it. *)
Definition new_DeviceHandler (device : usb_device) : M DeviceHandler :=
  usb (get_active_configuration device) ;;
  ret (MkDeviceHandler device 0x21 0x09 0x300 1).

Definition ctrl_write (self : DeviceHandler) (payload : list Z) : M unit :=
  usb (ctrl_transfer (_device self) (bmRequestType self) (bRequest self)
         (wValue self) (wIndex self) payload).

(* for _ in range(times): self._device.write(self.out_ep, payload) *)
Fixpoint bulk_write_loop (self : DeviceHandler) (times : nat) (payload : list Z) : M unit :=
  match times with
  | O => ret tt
  | S n => usb (write (_device self) payload) ;; bulk_write_loop self n payload
  end.

Definition bulk_write (self : DeviceHandler) (times : Z) (payload : list Z) : M unit :=
  bulk_write_loop self (Z.to_nat times) payload.

(** ** aucc/core/colors.py

    The module of the colour tables is a collaborator of this code: its
    three functions are taken as they are, each raising for a colour name
    it does not know. *)

Class Colors : Type := {
  get_mono_color_vector : string -> result (list Z);
  get_h_alt_color_vector : string -> string -> result (list Z);
  get_v_alt_color_vector : string -> string -> result (list Z)
}.

(** ** ControlCenter

    The methods that call themselves take the depth of call stack that is
    left: a call that would exceed it raises [RecursionError]. *)

Definition disable_keyboard (device : DeviceHandler) : M unit :=
  ctrl_write device [0x08; 0x01; 0x00; 0x00; 0x00; 0x00; 0x00; 0x00].

Definition keyboard_style (device : DeviceHandler) (style : string)
    (brightness speed : Z) : M unit :=
  code <- lift (get_light_style_code style brightness speed) ;;
  ctrl_write device (frame_bytes code).

Fixpoint adjust_brightness (depth : nat) (device : DeviceHandler)
    (brightness : option Z) : M unit :=
  match truthy_int brightness with
  | Some b =>
      set_brightness (Some b) ;;
      self_brightness <- get_brightness ;;
      code <- lift (getitem_opt_int brightness_map self_brightness) ;;
      ctrl_write device [0x08; 0x02; 0x33; 0x00; code; 0x00; 0x00; 0x00]
  | None =>
      match depth with
      | O => throw RecursionError
      | S d => adjust_brightness d device (Some 4)
      end
  end.

(* options available: (0x00 for no, 0x01 for yes)
   purpose: write changes on chip to keep current color on reboot *)
Definition color_scheme_setup (device : DeviceHandler) (save_changes : Z) : M unit :=
  ctrl_write device [0x12; 0x00; 0x00; 0x08; save_changes; 0x00; 0x00; 0x00].

Fixpoint mono_color_setup `{Colors} (depth : nat) (device : DeviceHandler)
    (color_scheme : string) : M unit :=
  b <- get_brightness ;;
  match truthy_int b with
  | Some _ =>
      color_scheme_setup device 0x01 ;;
      color_vector <- lift (get_mono_color_vector color_scheme) ;;
      bulk_write device 8 color_vector
  | None =>
      match depth with
      | O => throw RecursionError
      | S d =>
          adjust_brightness d device None ;;
          mono_color_setup d device color_scheme
      end
  end.

Fixpoint h_alt_color_setup `{Colors} (depth : nat) (device : DeviceHandler)
    (color_scheme_a color_scheme_b : string) : M unit :=
  b <- get_brightness ;;
  match truthy_int b with
  | Some _ =>
      color_scheme_setup device 0x01 ;;
      color_vector <- lift (get_h_alt_color_vector color_scheme_a color_scheme_b) ;;
      bulk_write device 8 color_vector
  | None =>
      match depth with
      | O => throw RecursionError
      | S d =>
          adjust_brightness d device None ;;
          h_alt_color_setup d device color_scheme_a color_scheme_b
      end
  end.

Fixpoint v_alt_color_setup `{Colors} (depth : nat) (device : DeviceHandler)
    (color_scheme_a color_scheme_b : string) : M unit :=
  b <- get_brightness ;;
  match truthy_int b with
  | Some _ =>
      color_scheme_setup device 0x01 ;;
      color_vector <- lift (get_v_alt_color_vector color_scheme_a color_scheme_b) ;;
      bulk_write device 8 color_vector
  | None =>
      match depth with
      | O => throw RecursionError
      | S d =>
          adjust_brightness d device None ;;
          v_alt_color_setup d device color_scheme_a color_scheme_b
      end
  end.

(** ** A run of calls on one ControlCenter

    The calls a client makes on a fresh [ControlCenter], one after the
    other; an exception is not caught and ends the run. *)

Inductive call : Type :=
| CallDisable
| CallStyle (style : string) (brightness speed : Z)
| CallBrightness (brightness : option Z)
| CallMono (color_scheme : string)
| CallHAlt (color_scheme_a color_scheme_b : string)
| CallVAlt (color_scheme_a color_scheme_b : string).

Definition do_call `{Colors} (depth : nat) (device : DeviceHandler) (c : call) : M unit :=
  match c with
  | CallDisable => disable_keyboard device
  | CallStyle style b speed => keyboard_style device style b speed
  | CallBrightness b => adjust_brightness depth device b
  | CallMono c => mono_color_setup depth device c
  | CallHAlt a b => h_alt_color_setup depth device a b
  | CallVAlt a b => v_alt_color_setup depth device a b
  end.

Fixpoint do_calls `{Colors} (depth : nat) (device : DeviceHandler) (cs : list call) : M unit :=
  match cs with
  | [] => ret tt
  | c :: cs' => do_call depth device c ;; do_calls depth device cs'
  end.

(* ControlCenter.__init__: self.brightness = None; nothing sent, nothing
   printed yet. *)
Definition fresh : world := World None [] [].

(** ** main

    [parsed] is what [parser.parse_args()] returned and [devices] what
    [control.get_devices()] returned: the devices of the bus that the
    vendor and product table lets through.  The enumeration of the bus,
    with the detaching of the kernel driver, and the elevation of
    privileges come before the part of [main] that is modelled here; the
    transfers recorded are those made on the selected device. *)

Record args : Type := Args {
  list_devices : bool;
  color : option string;
  h_alt : option (string * string);
  v_alt : option (string * string);
  style : option string;
  disable : bool;
  device : option Z;
  brightness_arg : option Z;
  speed : option Z
}.

(* str(n) as an f-string formats it *)
Definition str (n : Z) : string := NilZero.string_of_int (Z.to_int n).

Definition len {A} (l : list A) : Z := Z.of_nat (List.length l).

(* l[i] for i >= 0 *)
Definition getitem_list {A} (l : list A) (i : Z) : result A :=
  match nth_error l (Z.to_nat i) with
  | Some a => ok a
  | None => raise IndexError
  end.

(* for idx, device in enumerate(devices): print(...) *)
Fixpoint print_devices (idx : Z) (devices : list usb_device) : M unit :=
  match devices with
  | [] => ret tt
  | d :: ds =>
      print ("[" ++ str (idx + 1) ++ "] device #" ++ str (idx + 1)
             ++ " vendor=" ++ str (idVendor d)
             ++ ", product=" ++ str (idProduct d)) ;;
      print_devices (idx + 1) ds
  end.

Definition select_device (parsed : args) (devices : list usb_device) : M usb_device :=
  match truthy_int (device parsed) with
  | Some n =>
      if ((n <? 1)%Z || (n - 1 >=? len devices)%Z)%bool then
        print ("Device #" ++ str n ++ " does not exist, there are "
               ++ str (len devices) ++ " devices.") ;;
        throw (SystemExit 1)
      else
        lift (getitem_list devices (n - 1))
  | None =>
      (if (len devices =? 0)%Z then
         print "No device found" ;;
         throw (SystemExit 1)
       else ret tt) ;;
      (if (len devices >? 1)%Z then
         print "Found multiple devices, please use -d to select one and -l to list them" ;;
         throw (SystemExit 1)
       else ret tt) ;;
      lift (getitem_list devices 0)
  end.

Definition main `{Colors} (depth : nat) (parsed : args) (devices : list usb_device) : M unit :=
  if list_devices parsed then
    print_devices 0 devices
  else
    device <- select_device parsed devices ;;
    device_handler <- new_DeviceHandler device ;;
    if disable parsed then
      disable_keyboard device_handler
    else
      match truthy_str (style parsed) with
      | Some style =>
          let speed := match truthy_int (speed parsed) with
                       | Some s => s
                       | None => 5
                       end in
          match truthy_int (brightness_arg parsed) with
          | Some b => keyboard_style device_handler style b speed
          | None => keyboard_style device_handler style default_brightness speed
          end
      | None =>
          (match truthy_int (brightness_arg parsed) with
           | Some b => adjust_brightness depth device_handler (Some b)
           | None => ret tt
           end) ;;
          match truthy_str (color parsed), h_alt parsed, v_alt parsed with
          | Some c, _, _ => mono_color_setup depth device_handler c
          | None, Some (a, b), _ => h_alt_color_setup depth device_handler a b
          | None, None, Some (a, b) => v_alt_color_setup depth device_handler a b
          | None, None, None => print "Invalid or absent command"
          end
  end.

(* The exit status of the process: 0 when main returns, the argument of
   sys.exit, 1 for any other exception. *)
Definition exit_status {A} (r : result A) : Z :=
  match r with
  | inr _ => 0
  | inl (SystemExit n) => n
  | inl _ => 1
  end.

(** ** ControlCenter.get_devices

    [self.vendor_products] maps a vendor to [None], for any product, or to
    the list of its products.  The bus is what [usb.core.find] walks: each
    device with the answer it gives to [is_kernel_driver_active(1)]. *)

Definition vendor_products_t : Type := list (Z * option (list Z)).

(* def match(dev), the custom_match of usb.core.find *)
Definition match_device (vendor_products : vendor_products_t) (dev : usb_device) : bool :=
  match assoc Z.eqb (idVendor dev) vendor_products with
  | None => false
  | Some None => true
  | Some (Some products) => existsb (Z.eqb (idProduct dev)) products
  end.

Record bus_device : Type := BusDevice {
  bus_dev : usb_device;
  kernel_driver_active : bool
}.

Inductive driver_call : Type :=
| is_kernel_driver_active (d : usb_device) (interface : Z)
| detach_kernel_driver (d : usb_device) (interface : Z).

(* s.startswith(prefix) *)
Definition startswith (s prefix : string) : bool :=
  match Re.strip_prefix prefix s with
  | Some _ => true
  | None => false
  end.

(* The devices returned, and the calls made on the kernel drivers.
   in linux interface is 1, in windows 0 *)
Definition get_devices (vendor_products : vendor_products_t) (platform : string)
    (bus : list bus_device) : list usb_device * list driver_call :=
  let devices := filter (fun b => match_device vendor_products (bus_dev b)) bus in
  (map bus_dev devices,
   if negb (startswith platform "win") then
     flat_map (fun b =>
                 is_kernel_driver_active (bus_dev b) 1
                   :: (if kernel_driver_active b
                       then [detach_kernel_driver (bus_dev b) 1]
                       else []))
              devices
   else []).

(** ** The vendor and product table of main

    [int0] is the builtin [int(s, 0)], taken as it is: the number a string
    denotes, or the exception it raises. *)

Section VendorProducts.

Variable int0 : string -> result Z.

Definition vendor_products_of (vendor product : option string) : result vendor_products_t :=
  match truthy_str vendor with
  | Some v =>
      (* convert potentially hexadecimal into decimal int *)
      rbind (int0 v) (fun vendor =>
        match truthy_str product with
        | Some p => rbind (int0 p) (fun product => ok [(vendor, Some [product])])
        | None => ok [(vendor, None)]
        end)
  | None =>
      match truthy_str product with
      | Some p => rbind (int0 p) (fun product => ok [(0x048d, Some [product])])
      | None => ok [(0x048d, Some [0xce00; 0x600b; 0x7001])]
      end
  end.

End VendorProducts.

(** * Vocabulary of the properties *)

(** ** Style tokens *)

(* What $ accepts after the last group. *)
Definition line_end (tail : string) : Prop :=
  tail = "" \/ tail = String Re.newline "".

(* No effect name starts the token. *)
Definition no_effect_name (style : string) : Prop :=
  forall p, In p (keys programs) -> Re.strip_prefix p style = None.

(* An effect name followed by one character that is neither a colour
   letter nor the newline that $ lets through. *)
Definition effect_with_bad_letter (style : string) : Prop :=
  exists p c,
    In p (keys programs) /\
    ~ In (String c "") (keys colours) /\
    c <> Re.newline /\
    style = p ++ String c "".

(** ** Sequences of transfers *)

(* The control transfer that sets the brightness of device d. *)
Definition brightness_write (d : usb_device) (c : usb_call) : Prop :=
  exists rt r v i code,
    c = ctrl_transfer d rt r v i [0x08; 0x02; 0x33; 0x00; code; 0x00; 0x00; 0x00].

Definition has_brightness_write (d : usb_device) (l : list usb_call) : Prop :=
  exists c, In c l /\ brightness_write d c.

(* Every bulk write of the sequence comes after a brightness write to the
   same device. *)
Definition brightness_before_bulk (l : list usb_call) : Prop :=
  forall pre d p post,
    l = (pre ++ write d p :: post)%list -> has_brightness_write d pre.

(* The state in which the calls on device d keep the sequence that way:
   a brightness that is set was also sent. *)
Definition good (d : usb_device) (w : world) : Prop :=
  brightness_before_bulk (transfers w) /\
  (truthy_int (brightness w) <> None -> has_brightness_write d (transfers w)).

Definition preserves {A} (d : usb_device) (c : M A) : Prop :=
  forall w, good d w ->
    brightness_before_bulk (transfers (snd (c w))) /\
    (forall a, fst (c w) = ok a -> good d (snd (c w))).

(* Computations that send nothing and leave the brightness alone. *)
Definition silent {A} (c : M A) : Prop :=
  forall w, transfers (snd (c w)) = transfers w /\
            brightness (snd (c w)) = brightness w.

(* The three colour-table methods have one body, up to the vector. *)
Fixpoint color_table_setup (color_vector : result (list Z)) (depth : nat)
    (device : DeviceHandler) : M unit :=
  b <- get_brightness ;;
  match truthy_int b with
  | Some _ =>
      color_scheme_setup device 0x01 ;;
      color_vector <- lift color_vector ;;
      bulk_write device 8 color_vector
  | None =>
      match depth with
      | O => throw RecursionError
      | S d =>
          adjust_brightness d device None ;;
          color_table_setup color_vector d device
      end
  end.

(* The vector that a colour-table call asks the colour module for. *)
Definition color_vector_of `{Colors} (c : call) : option (result (list Z)) :=
  match c with
  | CallMono s => Some (get_mono_color_vector s)
  | CallHAlt a b => Some (get_h_alt_color_vector a b)
  | CallVAlt a b => Some (get_v_alt_color_vector a b)
  | _ => None
  end.

(* A colour module for the examples: it knows the colour red only. *)
Definition example_colors : Colors := {|
  get_mono_color_vector := fun c =>
    if String.eqb c "red" then ok [0xFF; 0x00; 0x00] else raise (ColorError c);
  get_h_alt_color_vector := fun a b =>
    if (String.eqb a "red" && String.eqb b "red")%bool
    then ok [0xFF; 0x00; 0x00] else raise (ColorError a);
  get_v_alt_color_vector := fun a b =>
    if (String.eqb a "red" && String.eqb b "red")%bool
    then ok [0xFF; 0x00; 0x00] else raise (ColorError a)
|}.

(* A device of the default vendor and product table. *)
Definition example_device : usb_device := UsbDevice 0x048d 0xce00.

(* The handler that main makes of a device. *)
Definition handler_of (d : usb_device) : DeviceHandler :=
  MkDeviceHandler d 0x21 0x09 0x300 1.

(* The frames of the orchestrator. *)
Definition power_off_frame : list Z := [0x08; 0x01; 0x00; 0x00; 0x00; 0x00; 0x00; 0x00].
Definition brightness_frame (code : Z) : list Z :=
  [0x08; 0x02; 0x33; 0x00; code; 0x00; 0x00; 0x00].
Definition persist_frame : list Z := [0x12; 0x00; 0x00; 0x08; 0x01; 0x00; 0x00; 0x00].

(* The control transfer that a handler makes of a frame. *)
Definition ctrl_of (h : DeviceHandler) (payload : list Z) : usb_call :=
  ctrl_transfer (_device h) (bmRequestType h) (bRequest h) (wValue h) (wIndex h) payload.

(** ** Calls made through a handler *)

(* A control transfer of the handler with eight bytes, or a bulk write to
   its device. *)
Definition handler_call (h : DeviceHandler) (c : usb_call) : Prop :=
  (exists payload, c = ctrl_of h payload /\ List.length payload = 8%nat) \/
  (exists v, c = write (_device h) v).

(* The computation only adds calls to the sequence, each of them in P. *)
Definition appends {A} (P : usb_call -> Prop) (c : M A) : Prop :=
  forall w, exists l,
    transfers (snd (c w)) = (transfers w ++ l)%list /\ Forall P l.

(* What one colour-table call sends once the brightness is set. *)
Definition color_upload (h : DeviceHandler) (v : list Z) : list usb_call :=
  ctrl_of h persist_frame :: repeat (write (_device h) v) 8.

(* The brightness and speed that main passes with a style. *)
Definition style_brightness (parsed : args) : Z :=
  match truthy_int (brightness_arg parsed) with
  | Some b => b
  | None => default_brightness
  end.

Definition style_speed (parsed : args) : Z :=
  match truthy_int (speed parsed) with
  | Some s => s
  | None => 5
  end.

(* The effect, program byte and secondary byte of the frames. *)
Definition effect_bytes : list (string * Z * Z) :=
  [ ("breathing", 0x02, 0x00); ("wave", 0x03, 0x01); ("random", 0x04, 0x00);
    ("reactive", 0x04, 0x01); ("rainbow", 0x05, 0x00); ("ripple", 0x06, 0x00);
    ("reactiveripple", 0x07, 0x00); ("marquee", 0x09, 0x00);
    ("fireworks", 0x11, 0x01); ("raindrop", 0x0A, 0x00); ("aurora", 0x0E, 0x00);
    ("reactiveaurora", 0x0E, 0x01) ].


(* The vector that main asks the colour module for: --color before
   --h-alt before --v-alt; None when none of them is given. *)
Definition main_color_vector `{Colors} (parsed : args) : option (result (list Z)) :=
  match truthy_str (color parsed), h_alt parsed, v_alt parsed with
  | Some c, _, _ => Some (get_mono_color_vector c)
  | None, Some (a, b), _ => Some (get_h_alt_color_vector a b)
  | None, None, Some (a, b) => Some (get_v_alt_color_vector a b)
  | None, None, None => None
  end.

(* A reader of numbers for the examples: it knows two spellings. *)
Definition example_int0 (s : string) : result Z :=
  if String.eqb s "0x048d" then ok 0x048d
  else if String.eqb s "0xce00" then ok 0xce00
  else raise (KeyError (StrKey s)).

(** * Properties *)

(** ** The grammar of style tokens *)

Module ReFacts.
Import Re.

Lemma strip_prefix_app (p s s' : string) :
  strip_prefix p s = Some s' -> s = p ++ s'.
Proof.
  revert s. induction p as [|a p IH]; intros s H; simpl in H.
  - now inversion H.
  - destruct s as [|b s]; [discriminate|].
    destruct (Ascii.eqb_spec a b) as [->|]; [|discriminate].
    simpl. f_equal. now apply IH.
Qed.

Lemma strip_prefix_of_app (p s' : string) : strip_prefix p (p ++ s') = Some s'.
Proof.
  induction p as [|a p IH]; simpl; [reflexivity|].
  now rewrite Ascii.eqb_refl.
Qed.

Lemma substring_prefix (p s' : string) : substring 0 (String.length p) (p ++ s') = p.
Proof.
  induction p as [|a p IH]; simpl.
  - now destruct s'.
  - now rewrite IH.
Qed.

(* An alternation of literals that matches took one of them off the front
   of the text and went on from there. *)
Lemma run_alternation_some (ks : list string) (st : mstate)
    (k : mstate -> option mstate) (m : mstate) :
  ks <> [] ->
  run (alternation ks) st k = Some m ->
  exists p s', In p ks /\ strip_prefix p (rest st) = Some s' /\
               k (MState s' (pos st + String.length p) (caps st)) = Some m.
Proof.
  induction ks as [|a ks IH]; intros Hne H; [congruence|].
  destruct ks as [|b ks].
  - simpl in H. destruct (strip_prefix a (rest st)) as [s'|] eqn:E; [|discriminate].
    exists a, s'. simpl. auto.
  - change (alternation (a :: b :: ks)) with (Alt (Lit a) (alternation (b :: ks))) in H.
    cbn [run] in H.
    destruct (strip_prefix a (rest st)) as [s'|] eqn:E.
    + destruct (k _) as [m'|] eqn:K.
      * inversion H; subst m'. exists a, s'. simpl. auto.
      * destruct (IH ltac:(discriminate) H) as (p & s2 & Hin & Hs & Hk).
        exists p, s2. split; [now right|auto].
    + destruct (IH ltac:(discriminate) H) as (p & s2 & Hin & Hs & Hk).
      exists p, s2. split; [now right|auto].
Qed.

(* It fails when none of them starts the text. *)
Lemma run_alternation_none (ks : list string) (st : mstate)
    (k : mstate -> option mstate) :
  ks <> [] ->
  (forall p, In p ks -> strip_prefix p (rest st) = None) ->
  run (alternation ks) st k = None.
Proof.
  induction ks as [|a ks IH]; intros Hne H; [congruence|].
  destruct ks as [|b ks].
  - simpl. now rewrite (H a (or_introl eq_refl)).
  - change (alternation (a :: b :: ks)) with (Alt (Lit a) (alternation (b :: ks))).
    cbn [run]. rewrite (H a (or_introl eq_refl)).
    apply IH; [discriminate|]. intros p Hp. apply H. now right.
Qed.

End ReFacts.

Lemma at_eol_line_end (s : string) : Re.at_eol s = true -> line_end s.
Proof.
  destruct s as [|c [|d s]]; simpl; intros H; try discriminate.
  - now left.
  - right. destruct (Ascii.eqb_spec c Re.newline); [now subst|discriminate].
Qed.

(* A token that the pattern matches is an effect name, then at most one
   colour letter, then the end of the line. *)
Lemma light_style_match_inv (style program : string) (colour : option string) :
  light_style_match style = Some (program, colour) ->
  In program (keys programs) /\
  exists tail, line_end tail /\
    match colour with
    | None => style = program ++ tail
    | Some c => In c (keys colours) /\ style = program ++ c ++ tail
    end.
Proof.
  unfold light_style_match, Re.rmatch, light_style_pattern.
  cbn [Re.run Re.pos Nat.eqb].
  destruct (Re.run _ _ _) as [m|] eqn:R; [|discriminate].
  apply ReFacts.run_alternation_some in R; [|discriminate].
  destruct R as (p & s1 & Hp & Hs1 & R).
  cbn [Re.rest Re.pos Re.caps] in Hs1, R.
  apply ReFacts.strip_prefix_app in Hs1. subst style.
  unfold Re.consumed in R. cbn [Re.rest Re.pos Re.caps] in R.
  rewrite Nat.sub_0_r, Nat.add_0_l, ReFacts.substring_prefix in R.
  match type of R with
  | match ?x with _ => _ end = _ => destruct x as [m'|] eqn:R2
  end.
  - (* the colour group took part *)
    inversion R; subst m'; clear R.
    apply ReFacts.run_alternation_some in R2; [|discriminate].
    destruct R2 as (c & s2 & Hc & Hs2 & R2).
    cbn [Re.rest Re.pos Re.caps] in Hs2, R2.
    apply ReFacts.strip_prefix_app in Hs2. subst s1.
    rewrite Nat.add_comm, Nat.add_sub, ReFacts.substring_prefix in R2.
    destruct (Re.at_eol s2) eqn:E; [|discriminate].
    inversion R2; subst m; clear R2.
    cbn. intros H; inversion H; subst program colour.
    split; [exact Hp|]. exists s2. split; [now apply at_eol_line_end|auto].
  - (* it did not *)
    cbn [Re.rest] in R.
    destruct (Re.at_eol s1) eqn:E; [|discriminate].
    inversion R; subst m; clear R.
    cbn. intros H; inversion H; subst program colour.
    split; [exact Hp|]. exists s1. split; [now apply at_eol_line_end|auto].
Qed.

(* No effect name starts the token: the pattern does not match. *)
Lemma light_style_match_no_effect (style : string) :
  (forall p, In p (keys programs) -> Re.strip_prefix p style = None) ->
  light_style_match style = None.
Proof.
  intros H. unfold light_style_match, Re.rmatch, light_style_pattern.
  cbn [Re.run Re.pos Nat.eqb].
  rewrite ReFacts.run_alternation_none; [reflexivity|discriminate|exact H].
Qed.

(** ** Lookups in the tables *)

Lemma programs_getitem (p : string) :
  In p (keys programs) -> exists code, getitem_str programs p = ok code.
Proof.
  simpl. intros H.
  repeat (destruct H as [<-|H]; [eexists; reflexivity|]). contradiction.
Qed.

Lemma colours_getitem (c : string) :
  In c (keys colours) ->
  exists a code, c = String a "" /\ getitem_str colours c = ok code.
Proof.
  simpl. intros H.
  repeat (destruct H as [<-|H]; [do 2 eexists; split; reflexivity|]). contradiction.
Qed.

Lemma brightness_getitem_ok (b : Z) :
  1 <= b <= 4 ->
  exists code, getitem_int brightness_map b = ok code /\ In code [0x08; 0x16; 0x24; 0x32].
Proof.
  intros H.
  assert (E : b = 1 \/ b = 2 \/ b = 3 \/ b = 4) by lia.
  destruct E as [-> | [-> | [-> | ->]]]; eexists; (split; [reflexivity|simpl; tauto]).
Qed.

Lemma brightness_getitem_err (b : Z) :
  ~ (1 <= b <= 4) -> getitem_int brightness_map b = raise (KeyError (IntKey b)).
Proof.
  intros H. unfold getitem_int, brightness_map. simpl.
  destruct (Z.eqb_spec b 1); [lia|].
  destruct (Z.eqb_spec b 2); [lia|].
  destruct (Z.eqb_spec b 3); [lia|].
  destruct (Z.eqb_spec b 4); [lia|].
  reflexivity.
Qed.

(* A token that parses and a level of the table give a frame, whatever the
   speed is: the frame carries the speed as it came. *)
Lemma get_light_style_code_returns (style : string) (b speed : Z) :
  light_style_match style <> None ->
  1 <= b <= 4 ->
  exists program code colour program2,
    getitem_int brightness_map b = ok code /\
    get_light_style_code style b speed =
      ok (0x08, 0x02, program, speed, code, colour, program2, 0x00).
Proof.
  intros Hm Hb.
  destruct (light_style_match style) as [[p oc]|] eqn:E; [|congruence].
  destruct (light_style_match_inv _ _ _ E) as (Hp & tail & _ & Hc).
  destruct (programs_getitem p Hp) as (pc & Hpc).
  destruct (brightness_getitem_ok b Hb) as (bc & Hbc & _).
  assert (Hcol : exists cc,
            match oc with
            | Some (String _ _ as c) => getitem_str colours c
            | _ => ok 0x08
            end = ok cc).
  { destruct oc as [c|]; [|eexists; reflexivity].
    destruct Hc as (Hc & _).
    destruct (colours_getitem c Hc) as (a & cc & -> & Hcc).
    exists cc. exact Hcc. }
  destruct Hcol as (cc & Hcc).
  unfold get_light_style_code. rewrite E, Hpc. cbn [rbind].
  rewrite Hcc. cbn [rbind]. rewrite Hbc. cbn [rbind].
  repeat match goal with
         | |- context [if ?t then _ else _] => destruct t
         end;
    do 4 eexists; (split; reflexivity).
Qed.

(** ** The claims on the style resolver *)

(** C2: the token "rippler" (ripple with the red colour letter) with
    brightness level 3 and speed 5 resolves to the frame
    (0x08,0x02,0x06,0x05,0x24,0x01,0x00,0x00). *)
Theorem ripple_red_frame :
  get_light_style_code "rippler" 3 5 =
    ok (0x08, 0x02, 0x06, 0x05, 0x24, 0x01, 0x00, 0x00).
Proof. reflexivity. Qed.

(** C10: the token "reactiveripple" with the default brightness and speed
    resolves to the frame of the effect reactiveripple,
    (0x08,0x02,0x07,0x05,0x24,0x08,0x00,0x00): the first group of the match
    is the whole token and the colour group takes no part, so the token is
    never read as the effect "reactive" followed by more text. *)
Theorem reactiveripple_frame :
  light_style_match "reactiveripple" = Some ("reactiveripple", None) /\
  (forall c, light_style_match "reactiveripple" <> Some ("reactive", c)) /\
  get_light_style_code "reactiveripple" default_brightness default_speed =
    ok (0x08, 0x02, 0x07, 0x05, 0x24, 0x08, 0x00, 0x00).
Proof.
  split; [reflexivity|]. split; [|reflexivity].
  intros c. vm_compute. discriminate.
Qed.

Lemma bad_letter_no_match (p : string) (c : ascii) :
  In p (keys programs) ->
  ~ In (String c "") (keys colours) ->
  c <> Re.newline ->
  light_style_match (p ++ String c "") = None.
Proof.
  intros Hp Hc Hn. simpl in Hp.
  repeat (destruct Hp as [<-|Hp];
    [destruct c as [[] [] [] [] [] [] [] []];
     first [ reflexivity
           | exfalso; apply Hn; reflexivity
           | exfalso; apply Hc; simpl; tauto ] |]).
  contradiction.
Qed.

(** C3: a token that starts with no known effect name, and a token made of
    a known effect name and one more letter that is none of the seven
    colour letters, are refused with the style-not-found exception: no
    frame is returned.  (The letter may be any character but the colour
    letters and the newline.) *)
Theorem unknown_style_rejected (style : string) (b speed : Z) :
  no_effect_name style \/ effect_with_bad_letter style ->
  get_light_style_code style b speed = raise (StyleNotFound style).
Proof.
  intros H. unfold get_light_style_code.
  destruct H as [H|(p & c & Hp & Hc & Hn & ->)].
  - now rewrite (light_style_match_no_effect style H).
  - now rewrite (bad_letter_no_match p c Hp Hc Hn).
Qed.

Lemma unknown_style_rejected_witness :
  get_light_style_code "unknownname" 3 5 = raise (StyleNotFound "unknownname") /\
  get_light_style_code "ripplez" 3 5 = raise (StyleNotFound "ripplez").
Proof.
  split.
  - apply (unknown_style_rejected "unknownname" 3 5). left.
    intros p Hp. simpl in Hp.
    repeat (destruct Hp as [<-|Hp]; [reflexivity|]). contradiction.
  - apply (unknown_style_rejected "ripplez" 3 5). right.
    exists "ripple", "z"%char. repeat split.
    + simpl. tauto.
    + simpl. intros H.
      repeat (destruct H as [H|H]; [discriminate H|]). exact H.
    + discriminate.
Defined.

(* The newline that $ lets through is not refused: the token is read as
   if it ended before it. *)
Lemma trailing_newline_accepted :
  get_light_style_code (String.append "ripple" (String Re.newline "")) 3 5 =
    get_light_style_code "ripple" 3 5.
Proof. reflexivity. Qed.

(** C4: for every token whose effect is "wave", with a colour letter or
    without one, and every level of the brightness table, the frame that
    is returned has colour byte 0x00 and secondary-effect byte 0x01. *)
Theorem wave_forces_colour_and_flag (style : string) (colour : option string)
    (b speed : Z) :
  light_style_match style = Some ("wave", colour) ->
  1 <= b <= 4 ->
  exists f,
    get_light_style_code style b speed = ok f /\
    frame_colour f = 0x00 /\
    frame_program2 f = 0x01.
Proof.
  intros Hm Hb.
  destruct (get_light_style_code_returns style b speed) as (pc & bc & cc & p2 & _ & E);
    [congruence|exact Hb|].
  exists (0x08, 0x02, pc, speed, bc, cc, p2, 0x00). split; [exact E|].
  revert E. unfold get_light_style_code. rewrite Hm.
  destruct (getitem_str programs "wave") as [e|x]; cbn [rbind]; [discriminate|].
  destruct (match colour with Some (String _ _ as c) => _ | _ => _ end) as [e|y];
    cbn [rbind]; [discriminate|].
  destruct (getitem_int brightness_map b) as [e|z]; cbn [rbind]; [discriminate|].
  cbn. intros E. inversion E. split; reflexivity.
Qed.

Lemma wave_forces_colour_and_flag_witness :
  exists f,
    get_light_style_code "waver" 4 7 = ok f /\
    frame_colour f = 0x00 /\
    frame_program2 f = 0x01.
Proof.
  apply (wave_forces_colour_and_flag "waver" (Some "r") 4 7); [reflexivity|lia].
Defined.

(* Every spelling of the effect: the name alone and the name with each of
   the seven letters. *)
Lemma wave_tokens (suffix : string) :
  In suffix ("" :: keys colours) ->
  light_style_match ("wave" ++ suffix) =
    Some ("wave", match suffix with "" => None | _ => Some suffix end).
Proof.
  simpl. intros H.
  repeat (destruct H as [<-|H]; [reflexivity|]). contradiction.
Qed.

(** C5: a brightness level outside 1..4 gives no frame, and on a token
    that parses the failure is the missing key of the brightness table;
    the levels 1, 2, 3, 4 have the bytes 0x08, 0x16, 0x24, 0x32, one each
    way. *)
Theorem brightness_levels :
  (forall style b speed,
      ~ (1 <= b <= 4) ->
      (forall f, get_light_style_code style b speed <> ok f) /\
      (light_style_match style <> None ->
       get_light_style_code style b speed = raise (KeyError (IntKey b)))) /\
  getitem_int brightness_map 1 = ok 0x08 /\
  getitem_int brightness_map 2 = ok 0x16 /\
  getitem_int brightness_map 3 = ok 0x24 /\
  getitem_int brightness_map 4 = ok 0x32 /\
  (forall b, 1 <= b <= 4 <-> exists code, getitem_int brightness_map b = ok code) /\
  (forall b1 b2 code,
      getitem_int brightness_map b1 = ok code ->
      getitem_int brightness_map b2 = ok code -> b1 = b2) /\
  (forall code,
      In code [0x08; 0x16; 0x24; 0x32] <->
      exists b, getitem_int brightness_map b = ok code).
Proof.
  assert (Hdom : forall b code, getitem_int brightness_map b = ok code ->
                   (b = 1 /\ code = 0x08) \/ (b = 2 /\ code = 0x16) \/
                   (b = 3 /\ code = 0x24) \/ (b = 4 /\ code = 0x32)).
  { intros b code. unfold getitem_int, brightness_map. simpl.
    destruct (Z.eqb_spec b 1); [intros H; inversion H; lia|].
    destruct (Z.eqb_spec b 2); [intros H; inversion H; lia|].
    destruct (Z.eqb_spec b 3); [intros H; inversion H; lia|].
    destruct (Z.eqb_spec b 4); [intros H; inversion H; lia|].
    discriminate. }
  split; [|do 4 (split; [reflexivity|]); split; [intros b; split|split; [|intros code; split]]].
  - intros style b speed Hb. split.
    + intros f. unfold get_light_style_code.
      destruct (light_style_match style) as [[p oc]|]; [|discriminate].
      destruct (getitem_str programs p) as [e|x]; cbn [rbind]; [discriminate|].
      destruct (match oc with Some (String _ _ as c) => _ | _ => _ end) as [e|y];
        cbn [rbind]; [discriminate|].
      rewrite (brightness_getitem_err b Hb). discriminate.
    + intros Hm.
      destruct (light_style_match style) as [[p oc]|] eqn:E; [|congruence].
      destruct (light_style_match_inv _ _ _ E) as (Hp & tail & _ & Hc).
      destruct (programs_getitem p Hp) as (pc & Hpc).
      unfold get_light_style_code. rewrite E, Hpc. cbn [rbind].
      destruct oc as [c|].
      * destruct Hc as (Hc & _).
        destruct (colours_getitem c Hc) as (a & cc & -> & Hcc).
        rewrite Hcc. cbn [rbind]. now rewrite (brightness_getitem_err b Hb).
      * cbn [rbind]. now rewrite (brightness_getitem_err b Hb).
  - intros Hb. destruct (brightness_getitem_ok b Hb) as (code & H & _). eauto.
  - intros (code & H). apply Hdom in H. lia.
  - intros b1 b2 code H1 H2. apply Hdom in H1, H2. lia.
  - simpl. intros [<-|[<-|[<-|[<-|[]]]]];
      [exists 1|exists 2|exists 3|exists 4]; reflexivity.
  - intros (b & H). apply Hdom in H. simpl. lia.
Qed.

Lemma brightness_levels_witness :
  get_light_style_code "ripple" 0 5 = raise (KeyError (IntKey 0)) /\
  get_light_style_code "ripple" 5 5 = raise (KeyError (IntKey 5)) /\
  (forall f, get_light_style_code "nosuchstyle" 5 5 <> ok f).
Proof.
  split; [|split].
  - apply (proj1 brightness_levels "ripple" 0 5); [lia|vm_compute; discriminate].
  - apply (proj1 brightness_levels "ripple" 5 5); [lia|vm_compute; discriminate].
  - apply (proj1 brightness_levels "nosuchstyle" 5 5). lia.
Defined.

(** C6, as the code has it: the resolver does not look at the speed.  On a
    token that parses, with a level of the brightness table, every speed,
    inside 1..10 or not, gives a frame whose speed byte is that speed. *)
Theorem speed_stored_unchecked (style : string) (b speed : Z) :
  light_style_match style <> None ->
  1 <= b <= 4 ->
  exists f,
    get_light_style_code style b speed = ok f /\
    frame_speed f = speed.
Proof.
  intros Hm Hb.
  destruct (get_light_style_code_returns style b speed Hm Hb)
    as (pc & bc & cc & p2 & _ & E).
  eexists. split; [exact E|reflexivity].
Qed.

Lemma speed_stored_unchecked_witness :
  exists f, get_light_style_code "ripple" 3 11 = ok f /\ frame_speed f = 11.
Proof.
  apply (speed_stored_unchecked "ripple" 3 11); [vm_compute; discriminate|lia].
Defined.

(* Speed 0, outside 1..10, is not refused: a frame with speed byte 0 is
   returned. *)
Lemma speed_zero_not_rejected :
  ~ (1 <= 0 <= 10) /\
  get_light_style_code "ripple" 3 0 =
    ok (0x08, 0x02, 0x06, 0x00, 0x24, 0x08, 0x00, 0x00) /\
  ~ (exists e, get_light_style_code "ripple" 3 0 = raise e).
Proof.
  split; [lia|]. split; [reflexivity|].
  intros (e & H). vm_compute in H. discriminate.
Qed.

(** ** What the methods of the orchestrator do to the world *)

Section Orchestrator.

Context `{Colors}.

Variable dev : DeviceHandler.

Lemma truthy_int_some (b : Z) : b <> 0 -> truthy_int (Some b) = Some b.
Proof. intros Hb. simpl. now destruct (Z.eqb_spec b 0). Qed.

Lemma truthy_int_inv (x : option Z) (b : Z) :
  truthy_int x = Some b -> x = Some b /\ b <> 0.
Proof.
  destruct x as [z|]; simpl; [|discriminate].
  destruct (Z.eqb_spec z 0); [discriminate|].
  intros E. inversion E. subst. auto.
Qed.

Lemma bind_get_brightness {A} (f : option Z -> M A) (w : world) :
  (b <- get_brightness ;; f b) w = f (brightness w) w.
Proof. reflexivity. Qed.

Lemma bind_ok {A B} (c : M A) (f : A -> M B) (w : world) (a : A) (w' : world) :
  c w = (ok a, w') -> (x <- c ;; f x) w = f a w'.
Proof. intros E. unfold bind. now rewrite E. Qed.

Lemma bind_raise {A B} (c : M A) (f : A -> M B) (w : world) (e : exn) (w' : world) :
  c w = (raise e, w') -> (x <- c ;; f x) w = (raise e, w').
Proof. intros E. unfold bind. now rewrite E. Qed.

(* A level that is given: stored first, then looked up, then sent. *)
Lemma adjust_brightness_level (depth : nat) (b : Z) (w : world) :
  b <> 0 ->
  adjust_brightness depth dev (Some b) w =
    match getitem_int brightness_map b with
    | inl e => (inl e, World (Some b) (transfers w) (stdout w))
    | inr code =>
        (ok tt, World (Some b)
                  (transfers w ++ [ctrl_of dev (brightness_frame code)])
                  (stdout w))
    end.
Proof.
  intros Hb.
  destruct depth; cbn [adjust_brightness]; rewrite (truthy_int_some b Hb);
    unfold bind, set_brightness, get_brightness, lift, ctrl_write, usb;
    cbn; destruct (getitem_int brightness_map b); reflexivity.
Qed.

(* No level, or level 0: the call is made again with level 4. *)
Lemma adjust_brightness_default (depth : nat) (b : option Z) (w : world) :
  truthy_int b = None ->
  adjust_brightness (S depth) dev b w =
    (ok tt, World (Some 4)
              (transfers w ++ [ctrl_of dev (brightness_frame 0x32)])
              (stdout w)).
Proof.
  intros Hb. cbn [adjust_brightness]. rewrite Hb.
  rewrite adjust_brightness_level by lia. reflexivity.
Qed.

Lemma bulk_write_loop_run (n : nat) (v : list Z) (w : world) :
  bulk_write_loop dev n v w =
    (ok tt, World (brightness w)
              (transfers w ++ repeat (write (_device dev) v) n)
              (stdout w)).
Proof.
  revert w. induction n as [|n IH]; intros w.
  - simpl. unfold ret. rewrite app_nil_r. now destruct w.
  - cbn [bulk_write_loop repeat]. unfold bind, usb. rewrite IH. cbn.
    now rewrite <- app_assoc.
Qed.

Lemma color_table_setup_S (vec : result (list Z)) (d : nat) :
  color_table_setup vec (S d) dev =
    (b <- get_brightness ;;
     match truthy_int b with
     | Some _ =>
         color_scheme_setup dev 0x01 ;;
         color_vector <- lift vec ;;
         bulk_write dev 8 color_vector
     | None =>
         adjust_brightness d dev None ;;
         color_table_setup vec d dev
     end).
Proof. reflexivity. Qed.

(* The colour-table upload once a brightness is set. *)
Lemma color_table_setup_set (vec : result (list Z)) (depth : nat) (w : world) (b : Z) :
  truthy_int (brightness w) = Some b ->
  color_table_setup vec depth dev w =
    match vec with
    | inl e =>
        (inl e, World (brightness w) (transfers w ++ [ctrl_of dev persist_frame])
                  (stdout w))
    | inr v =>
        (ok tt, World (brightness w)
                  ((transfers w ++ [ctrl_of dev persist_frame])
                     ++ repeat (write (_device dev) v) 8)
                  (stdout w))
    end.
Proof.
  intros Hb.
  assert (E : color_table_setup vec depth dev w =
              (color_scheme_setup dev 0x01 ;;
               color_vector <- lift vec ;;
               bulk_write dev 8 color_vector) w).
  { destruct depth; cbn [color_table_setup]; rewrite bind_get_brightness;
      now rewrite Hb. }
  rewrite E. unfold bind, color_scheme_setup, ctrl_write, usb, lift, bulk_write.
  destruct vec as [e|v]; [reflexivity|].
  rewrite bulk_write_loop_run. reflexivity.
Qed.

(* The colour-table upload when no brightness is set, with room for the
   two nested calls. *)
Lemma color_table_setup_unset (vec : result (list Z)) (depth : nat) (w : world) :
  truthy_int (brightness w) = None ->
  color_table_setup vec (S (S depth)) dev w =
    match vec with
    | inl e =>
        (inl e, World (Some 4)
                  (transfers w ++ [ctrl_of dev (brightness_frame 0x32);
                                   ctrl_of dev persist_frame])
                  (stdout w))
    | inr v =>
        (ok tt, World (Some 4)
                  (transfers w ++ [ctrl_of dev (brightness_frame 0x32);
                                   ctrl_of dev persist_frame]
                     ++ repeat (write (_device dev) v) 8)
                  (stdout w))
    end.
Proof.
  intros Hb. rewrite color_table_setup_S.
  rewrite bind_get_brightness, Hb.
  cbn beta.
  rewrite (bind_ok _ _ _ _ _ (adjust_brightness_default depth None w eq_refl)).
  rewrite (color_table_setup_set vec (S depth) _ 4) by reflexivity.
  destruct vec as [e|v]; cbn [brightness transfers stdout];
    rewrite <- !app_assoc; reflexivity.
Qed.

Lemma mono_color_setup_eq (depth : nat) (c : string) :
  mono_color_setup depth dev c = color_table_setup (get_mono_color_vector c) depth dev.
Proof.
  induction depth as [|d IH]; cbn [mono_color_setup color_table_setup];
    [reflexivity|now rewrite IH].
Qed.

Lemma h_alt_color_setup_eq (depth : nat) (a b : string) :
  h_alt_color_setup depth dev a b =
    color_table_setup (get_h_alt_color_vector a b) depth dev.
Proof.
  induction depth as [|d IH]; cbn [h_alt_color_setup color_table_setup];
    [reflexivity|now rewrite IH].
Qed.

Lemma v_alt_color_setup_eq (depth : nat) (a b : string) :
  v_alt_color_setup depth dev a b =
    color_table_setup (get_v_alt_color_vector a b) depth dev.
Proof.
  induction depth as [|d IH]; cbn [v_alt_color_setup color_table_setup];
    [reflexivity|now rewrite IH].
Qed.

(* A colour-table call is the shared body at the vector it asks for. *)
Lemma do_call_color (depth : nat) (c : call) (vec : result (list Z)) :
  color_vector_of c = Some vec ->
  do_call depth dev c = color_table_setup vec depth dev.
Proof.
  destruct c; cbn [color_vector_of do_call]; intros E; inversion E; subst.
  - apply mono_color_setup_eq.
  - apply h_alt_color_setup_eq.
  - apply v_alt_color_setup_eq.
Qed.

End Orchestrator.

(** ** Sequences in which brightness comes before the bulk writes *)

Lemma snoc_split {A} (l : list A) (c : A) (pre : list A) (x : A) (post : list A) :
  (l ++ [c] = pre ++ x :: post)%list ->
  (post = [] /\ l = pre /\ c = x) \/
  (exists post', post = (post' ++ [c])%list /\ l = (pre ++ x :: post')%list).
Proof.
  intros E. destruct post as [|y post] using rev_ind.
  - left. apply app_inj_tail in E. tauto.
  - right. exists post.
    change (pre ++ x :: post ++ [y])%list with (pre ++ (x :: post) ++ [y])%list in E.
    rewrite app_assoc in E. apply app_inj_tail in E. destruct E as [-> ->]. auto.
Qed.

Lemma brightness_before_bulk_nil : brightness_before_bulk [].
Proof.
  intros pre d p post E. destruct pre; discriminate.
Qed.

Lemma has_brightness_write_app (d : usb_device) (l l' : list usb_call) :
  has_brightness_write d l -> has_brightness_write d (l ++ l').
Proof.
  intros (c & Hin & Hc). exists c. split; [apply in_or_app; now left|exact Hc].
Qed.

Lemma has_brightness_write_snoc (h : DeviceHandler) (l : list usb_call) (code : Z) :
  has_brightness_write (_device h) (l ++ [ctrl_of h (brightness_frame code)]).
Proof.
  exists (ctrl_of h (brightness_frame code)). split.
  - apply in_or_app. right. now left.
  - unfold brightness_write, ctrl_of, brightness_frame. now do 5 eexists.
Qed.

(* A call that is no bulk write can follow any such sequence. *)
Lemma brightness_before_bulk_snoc (l : list usb_call) (c : usb_call) :
  brightness_before_bulk l ->
  (forall d p, c <> write d p) ->
  brightness_before_bulk (l ++ [c]).
Proof.
  intros Hl Hc pre d p post E.
  apply snoc_split in E. destruct E as [(_ & _ & E)|(post' & _ & E)].
  - now elim (Hc d p).
  - exact (Hl pre d p post' E).
Qed.

(* A bulk write can follow once the brightness was sent to its device. *)
Lemma brightness_before_bulk_write (l : list usb_call) (d : usb_device) (p : list Z) :
  brightness_before_bulk l ->
  has_brightness_write d l ->
  brightness_before_bulk (l ++ [write d p]).
Proof.
  intros Hl Hd pre d' p' post E.
  apply snoc_split in E. destruct E as [(_ & -> & E)|(post' & _ & E)].
  - inversion E; subst. exact Hd.
  - exact (Hl pre d' p' post' E).
Qed.

Lemma brightness_before_bulk_repeat (l : list usb_call) (d : usb_device)
    (p : list Z) (n : nat) :
  brightness_before_bulk l ->
  has_brightness_write d l ->
  brightness_before_bulk (l ++ repeat (write d p) n).
Proof.
  revert l. induction n as [|n IH]; intros l Hl Hd.
  - simpl. now rewrite app_nil_r.
  - change (repeat (write d p) (S n)) with ([write d p] ++ repeat (write d p) n)%list.
    rewrite app_assoc. apply IH.
    + now apply brightness_before_bulk_write.
    + now apply has_brightness_write_app.
Qed.

(** ** Every call keeps the state good *)

Lemma silent_ret {A} (a : A) : silent (ret a).
Proof. intros w. now split. Qed.

Lemma silent_throw {A} (e : exn) : silent (@throw A e).
Proof. intros w. now split. Qed.

Lemma silent_lift {A} (r : result A) : silent (lift r).
Proof. intros w. now split. Qed.

Lemma silent_print (line : string) : silent (print line).
Proof. intros w. now split. Qed.

Lemma silent_bind {A B} (c : M A) (f : A -> M B) :
  silent c -> (forall a, silent (f a)) -> silent (x <- c ;; f x).
Proof.
  intros Hc Hf w. unfold bind. specialize (Hc w).
  destruct (c w) as [[e|a] w1]; cbn [snd] in *; [exact Hc|].
  destruct (Hf a w1) as [E1 E2]. destruct Hc as [E3 E4]. split; congruence.
Qed.

Create HintDb silent.
#[local] Hint Resolve silent_ret silent_throw silent_lift silent_print : silent.

Lemma silent_print_devices (idx : Z) (devices : list usb_device) :
  silent (print_devices idx devices).
Proof.
  revert idx. induction devices as [|d ds IH]; intros idx; cbn [print_devices].
  - auto with silent.
  - apply silent_bind; auto with silent.
Qed.

Lemma silent_select_device (parsed : args) (devices : list usb_device) :
  silent (select_device parsed devices).
Proof.
  unfold select_device.
  destruct (truthy_int (device parsed)) as [n|].
  - destruct (_ || _)%bool; [apply silent_bind|]; auto with silent.
  - apply silent_bind.
    + destruct (len devices =? 0)%Z; [apply silent_bind|]; auto with silent.
    + intros _. apply silent_bind.
      * destruct (len devices >? 1)%Z; [apply silent_bind|]; auto with silent.
      * auto with silent.
Qed.

Lemma silent_preserves {A} (d : usb_device) (c : M A) : silent c -> preserves d c.
Proof.
  intros Hc w [Hs Hb]. destruct (Hc w) as [E1 E2].
  split; [now rewrite E1|]. intros a _. split; [now rewrite E1|].
  rewrite E1, E2. exact Hb.
Qed.

Lemma preserves_bind {A B} (d : usb_device) (c : M A) (f : A -> M B) :
  preserves d c -> (forall a, preserves d (f a)) -> preserves d (x <- c ;; f x).
Proof.
  intros Hc Hf w Hw. unfold bind. destruct (Hc w Hw) as [Hs Hg].
  destruct (c w) as [[e|a] w1]; cbn [fst snd] in *.
  - split; [exact Hs|]. intros a E. discriminate E.
  - exact (Hf a w1 (Hg a eq_refl)).
Qed.

(* A control transfer, whatever its frame. *)
Lemma preserves_ctrl_write (h : DeviceHandler) (payload : list Z) :
  preserves (_device h) (ctrl_write h payload).
Proof.
  intros w [Hs Hb]. unfold ctrl_write, usb. cbn [fst snd transfers brightness].
  assert (Hs' : brightness_before_bulk
                  (transfers w ++ [ctrl_of h payload])).
  { apply brightness_before_bulk_snoc; [exact Hs|]. intros d p. discriminate. }
  split; [exact Hs'|]. intros _ _. split; [exact Hs'|].
  intros Ht. apply has_brightness_write_app. exact (Hb Ht).
Qed.

Lemma preserves_new_DeviceHandler (d : usb_device) :
  preserves d (new_DeviceHandler d).
Proof.
  intros w [Hs Hb]. unfold new_DeviceHandler, bind, usb, ret.
  cbn [fst snd transfers brightness].
  assert (Hs' : brightness_before_bulk
                  (transfers w ++ [get_active_configuration d])).
  { apply brightness_before_bulk_snoc; [exact Hs|]. intros d' p. discriminate. }
  split; [exact Hs'|]. intros _ _. split; [exact Hs'|].
  intros Ht. apply has_brightness_write_app. exact (Hb Ht).
Qed.

Section Preservation.

Context `{Colors}.

Variable dev : DeviceHandler.

Lemma preserves_disable_keyboard : preserves (_device dev) (disable_keyboard dev).
Proof. apply preserves_ctrl_write. Qed.

Lemma preserves_keyboard_style (style : string) (b speed : Z) :
  preserves (_device dev) (keyboard_style dev style b speed).
Proof.
  apply preserves_bind.
  - apply silent_preserves, silent_lift.
  - intros code. apply preserves_ctrl_write.
Qed.

Lemma preserves_adjust_brightness (depth : nat) (b : option Z) :
  preserves (_device dev) (adjust_brightness depth dev b).
Proof.
  intros w [Hs Hb].
  assert (Hsent : forall code,
            brightness_before_bulk
              (transfers w ++ [ctrl_of dev (brightness_frame code)])).
  { intros code. apply brightness_before_bulk_snoc; [exact Hs|].
    intros d p. discriminate. }
  destruct (truthy_int b) as [z|] eqn:E.
  - apply truthy_int_inv in E. destruct E as [-> Hz].
    rewrite (adjust_brightness_level dev depth z w Hz).
    destruct (getitem_int brightness_map z) as [e|code]; cbn [fst snd transfers].
    + split; [exact Hs|]. intros a Ea. discriminate Ea.
    + split; [apply Hsent|]. intros _ _. split; [apply Hsent|].
      intros _. apply has_brightness_write_snoc.
  - destruct depth as [|depth].
    + cbn [adjust_brightness]. rewrite E. unfold throw. cbn [fst snd].
      split; [exact Hs|]. intros a Ea. discriminate Ea.
    + rewrite (adjust_brightness_default dev depth b w E). cbn [fst snd transfers].
      split; [apply Hsent|]. intros _ _. split; [apply Hsent|].
      intros _. apply has_brightness_write_snoc.
Qed.

Lemma preserves_color_table_setup (vec : result (list Z)) (depth : nat) :
  preserves (_device dev) (color_table_setup vec depth dev).
Proof.
  intros w [Hs Hb].
  assert (Hp : forall l, brightness_before_bulk l ->
                 brightness_before_bulk (l ++ [ctrl_of dev persist_frame])).
  { intros l Hl. apply brightness_before_bulk_snoc; [exact Hl|].
    intros d p. discriminate. }
  destruct (truthy_int (brightness w)) as [z|] eqn:E.
  - assert (Hw : has_brightness_write (_device dev) (transfers w))
      by (apply Hb; congruence).
    rewrite (color_table_setup_set dev vec depth w z E).
    destruct vec as [e|v]; cbn [fst snd transfers brightness].
    + split; [now apply Hp|]. intros a Ea. discriminate Ea.
    + assert (Hs' : brightness_before_bulk
                      ((transfers w ++ [ctrl_of dev persist_frame])
                         ++ repeat (write (_device dev) v) 8)).
      { apply brightness_before_bulk_repeat; [now apply Hp|].
        now apply has_brightness_write_app. }
      split; [exact Hs'|]. intros _ _. split; [exact Hs'|].
      intros _. now do 2 apply has_brightness_write_app.
  - destruct depth as [|[|depth]].
    + cbn [color_table_setup]. rewrite bind_get_brightness, E.
      split; [exact Hs|]. intros a Ea. discriminate Ea.
    + rewrite color_table_setup_S, bind_get_brightness, E. cbn beta.
      rewrite (bind_raise _ _ w RecursionError w).
      * split; [exact Hs|]. intros a Ea. discriminate Ea.
      * cbn [adjust_brightness truthy_int]. reflexivity.
    + rewrite (color_table_setup_unset dev vec depth w E).
      assert (Hs1 : brightness_before_bulk
                      (transfers w ++ [ctrl_of dev (brightness_frame 0x32);
                                       ctrl_of dev persist_frame])).
      { change [ctrl_of dev (brightness_frame 0x32); ctrl_of dev persist_frame]
          with ([ctrl_of dev (brightness_frame 0x32)] ++ [ctrl_of dev persist_frame])%list.
        rewrite app_assoc. apply Hp. apply brightness_before_bulk_snoc; [exact Hs|].
        intros d p. discriminate. }
      assert (Hw1 : has_brightness_write (_device dev)
                      (transfers w ++ [ctrl_of dev (brightness_frame 0x32);
                                       ctrl_of dev persist_frame])).
      { change [ctrl_of dev (brightness_frame 0x32); ctrl_of dev persist_frame]
          with ([ctrl_of dev (brightness_frame 0x32)] ++ [ctrl_of dev persist_frame])%list.
        rewrite app_assoc. apply has_brightness_write_app.
        apply has_brightness_write_snoc. }
      destruct vec as [e|v]; cbn [fst snd transfers brightness].
      * split; [exact Hs1|]. intros a Ea. discriminate Ea.
      * assert (Hs' : brightness_before_bulk
                        (transfers w ++ [ctrl_of dev (brightness_frame 0x32);
                                         ctrl_of dev persist_frame]
                           ++ repeat (write (_device dev) v) 8)).
        { rewrite app_assoc. now apply brightness_before_bulk_repeat. }
        split; [exact Hs'|]. intros _ _. split; [exact Hs'|].
        intros _. rewrite app_assoc. now apply has_brightness_write_app.
Qed.

Lemma preserves_do_call (depth : nat) (c : call) :
  preserves (_device dev) (do_call depth dev c).
Proof.
  destruct c; cbn [do_call].
  - apply preserves_disable_keyboard.
  - apply preserves_keyboard_style.
  - apply preserves_adjust_brightness.
  - rewrite mono_color_setup_eq. apply preserves_color_table_setup.
  - rewrite h_alt_color_setup_eq. apply preserves_color_table_setup.
  - rewrite v_alt_color_setup_eq. apply preserves_color_table_setup.
Qed.

Lemma preserves_do_calls (depth : nat) (cs : list call) :
  preserves (_device dev) (do_calls depth dev cs).
Proof.
  induction cs as [|c cs IH]; cbn [do_calls].
  - apply silent_preserves, silent_ret.
  - apply preserves_bind; [apply preserves_do_call|intros _; exact IH].
Qed.

End Preservation.

Lemma good_fresh (d : usb_device) : good d fresh.
Proof.
  split; [apply brightness_before_bulk_nil|]. cbn. congruence.
Qed.

(** ** main *)

Section Main.

Context `{Colors}.

Lemma new_DeviceHandler_run (d : usb_device) (w : world) :
  new_DeviceHandler d w =
    (ok (handler_of d),
     World (brightness w) (transfers w ++ [get_active_configuration d]) (stdout w)).
Proof. reflexivity. Qed.

(* What main does with the handler of the device it selected. *)
Lemma preserves_main_operation (depth : nat) (parsed : args) (h : DeviceHandler) :
  preserves (_device h)
    (if disable parsed then
       disable_keyboard h
     else
       match truthy_str (style parsed) with
       | Some style =>
           let speed := match truthy_int (speed parsed) with
                        | Some s => s
                        | None => 5
                        end in
           match truthy_int (brightness_arg parsed) with
           | Some b => keyboard_style h style b speed
           | None => keyboard_style h style default_brightness speed
           end
       | None =>
           (match truthy_int (brightness_arg parsed) with
            | Some b => adjust_brightness depth h (Some b)
            | None => ret tt
            end) ;;
           match truthy_str (color parsed), h_alt parsed, v_alt parsed with
           | Some c, _, _ => mono_color_setup depth h c
           | None, Some (a, b), _ => h_alt_color_setup depth h a b
           | None, None, Some (a, b) => v_alt_color_setup depth h a b
           | None, None, None => print "Invalid or absent command"
           end
       end).
Proof.
  destruct (disable parsed); [apply preserves_disable_keyboard|].
  destruct (truthy_str (style parsed)) as [st|].
  - cbv zeta. destruct (truthy_int (brightness_arg parsed));
      apply preserves_keyboard_style.
  - apply preserves_bind.
    + destruct (truthy_int (brightness_arg parsed)).
      * apply preserves_adjust_brightness.
      * apply silent_preserves, silent_ret.
    + intros _.
      destruct (truthy_str (color parsed)) as [c|];
        [rewrite mono_color_setup_eq; apply preserves_color_table_setup|].
      destruct (h_alt parsed) as [[a b]|];
        [rewrite h_alt_color_setup_eq; apply preserves_color_table_setup|].
      destruct (v_alt parsed) as [[a b]|];
        [rewrite v_alt_color_setup_eq; apply preserves_color_table_setup|].
      apply silent_preserves, silent_print.
Qed.

(* In every run of main a bulk write comes after a brightness write. *)
Lemma main_brightness_before_bulk (depth : nat) (parsed : args)
    (devices : list usb_device) :
  brightness_before_bulk (transfers (snd (main depth parsed devices fresh))).
Proof.
  unfold main. destruct (list_devices parsed).
  - destruct (silent_print_devices 0 devices fresh) as [-> _].
    apply brightness_before_bulk_nil.
  - unfold bind at 1.
    destruct (silent_select_device parsed devices fresh) as [Et Eb].
    destruct (select_device parsed devices fresh) as [[e|d] w1]; cbn [snd] in *.
    + rewrite Et. apply brightness_before_bulk_nil.
    + assert (Hg : good d w1).
      { split; [rewrite Et; apply brightness_before_bulk_nil|].
        rewrite Eb. cbn. congruence. }
      destruct (preserves_new_DeviceHandler d w1 Hg) as [_ Hg2].
      rewrite (bind_ok _ _ _ _ _ (new_DeviceHandler_run d w1)).
      rewrite new_DeviceHandler_run in Hg2. cbn [fst snd] in Hg2.
      specialize (Hg2 _ eq_refl).
      exact (proj1 (preserves_main_operation depth parsed (handler_of d) _ Hg2)).
Qed.

(* An index that is given, is not 0 and names no device ends the run with
   status 1 before anything is sent. *)
Lemma main_index_out_of_range (depth : nat) (parsed : args)
    (devices : list usb_device) (i : Z) :
  list_devices parsed = false ->
  device parsed = Some i ->
  i <> 0 ->
  i < 1 \/ len devices < i ->
  main depth parsed devices fresh =
    (raise (SystemExit 1),
     World None []
       ["Device #" ++ str i ++ " does not exist, there are "
          ++ str (len devices) ++ " devices."]).
Proof.
  intros Hl Hd Hi Hr. unfold main, select_device. rewrite Hl, Hd.
  rewrite (truthy_int_some i Hi).
  assert (E : ((i <? 1)%Z || (i - 1 >=? len devices)%Z)%bool = true).
  { apply orb_true_iff. destruct Hr; [left|right]; lia. }
  rewrite E. reflexivity.
Qed.

(* No index, or index 0, and not exactly one device: the run ends with
   status 1 before anything is sent. *)
Lemma main_no_index (depth : nat) (parsed : args) (devices : list usb_device) :
  list_devices parsed = false ->
  truthy_int (device parsed) = None ->
  len devices <> 1 ->
  exists message,
    main depth parsed devices fresh =
      (raise (SystemExit 1), World None [] [message]).
Proof.
  intros Hl Hd Hn. unfold main, select_device. rewrite Hl, Hd.
  destruct devices as [|d1 [|d2 ds]].
  - eexists. reflexivity.
  - now elim Hn.
  - assert (E : (len (d1 :: d2 :: ds) >? 1)%Z = true).
    { apply Z.gtb_lt. unfold len. cbn [List.length]. lia. }
    assert (E0 : (len (d1 :: d2 :: ds) =? 0)%Z = false).
    { apply Z.eqb_neq. unfold len. cbn [List.length]. lia. }
    rewrite E, E0. eexists. reflexivity.
Qed.

End Main.

(** ** The claims on the orchestrator *)

(** C1: a colour-table call (mono, horizontal-alternating or
    vertical-alternating) on an orchestrator whose brightness is unset,
    for a colour whose vector the colour module returns, issues exactly one
    brightness transfer for level 4 (frame 08 02 33 00 32 00 00 00), then
    the persist frame, then 8 bulk writes of the vector, and leaves the
    brightness set to 4.  In every run, of main and of any sequence of
    calls on a fresh orchestrator, each bulk write comes after a brightness
    control write to the same device. *)
Theorem color_table_bootstrap `{Colors} (depth : nat) (dev : DeviceHandler)
    (c : call) (v : list Z) (w : world) :
  brightness w = None ->
  color_vector_of c = Some (ok v) ->
  do_call (S (S depth)) dev c w =
    (ok tt,
     World (Some 4)
       (transfers w
          ++ [ctrl_of dev [0x08; 0x02; 0x33; 0x00; 0x32; 0x00; 0x00; 0x00];
              ctrl_of dev [0x12; 0x00; 0x00; 0x08; 0x01; 0x00; 0x00; 0x00]]
          ++ repeat (write (_device dev) v) 8)
       (stdout w)) /\
  (forall n parsed devices,
      brightness_before_bulk (transfers (snd (main n parsed devices fresh)))) /\
  (forall n cs,
      brightness_before_bulk (transfers (snd (do_calls n dev cs fresh)))).
Proof.
  intros Hb Hv. split; [|split].
  - rewrite (do_call_color dev (S (S depth)) c (ok v) Hv).
    rewrite color_table_setup_unset by (now rewrite Hb). reflexivity.
  - intros n parsed devices. apply main_brightness_before_bulk.
  - intros n cs.
    exact (proj1 (preserves_do_calls dev n cs fresh (good_fresh (_device dev)))).
Qed.

Lemma color_table_bootstrap_witness :
  @do_call example_colors 2 (handler_of example_device) (CallMono "red") fresh =
    (ok tt,
     World (Some 4)
       ([ctrl_transfer example_device 0x21 0x09 0x300 1
           [0x08; 0x02; 0x33; 0x00; 0x32; 0x00; 0x00; 0x00];
         ctrl_transfer example_device 0x21 0x09 0x300 1
           [0x12; 0x00; 0x00; 0x08; 0x01; 0x00; 0x00; 0x00]]
          ++ repeat (write example_device [0xFF; 0x00; 0x00]) 8)
       []).
Proof.
  exact (proj1 (@color_table_bootstrap example_colors 0 (handler_of example_device)
                  (CallMono "red") [0xFF; 0x00; 0x00] fresh eq_refl eq_refl)).
Defined.

(* When the colour module raises, the brightness and the persist frame
   were sent already and no bulk write follows. *)
Lemma color_table_unknown_color `{Colors} (depth : nat) (dev : DeviceHandler)
    (c : call) (e : exn) (w : world) :
  brightness w = None ->
  color_vector_of c = Some (raise e) ->
  do_call (S (S depth)) dev c w =
    (raise e,
     World (Some 4)
       (transfers w ++ [ctrl_of dev (brightness_frame 0x32); ctrl_of dev persist_frame])
       (stdout w)).
Proof.
  intros Hb Hv.
  rewrite (do_call_color dev (S (S depth)) c (raise e) Hv).
  rewrite color_table_setup_unset by (now rewrite Hb). reflexivity.
Qed.

(** C8: disable_keyboard issues exactly one control write, of the
    power-off frame (0x08,0x01,0x00,0x00,0x00,0x00,0x00,0x00), and leaves
    the brightness of the orchestrator as it was. *)
Theorem disable_sends_power_off (dev : DeviceHandler) (w : world) :
  disable_keyboard dev w =
    (ok tt,
     World (brightness w)
       (transfers w ++ [ctrl_of dev [0x08; 0x01; 0x00; 0x00; 0x00; 0x00; 0x00; 0x00]])
       (stdout w)).
Proof. reflexivity. Qed.

(** C9: adjust_brightness with level 0 does what it does with no level: it
    does not fail, stores 4 as the brightness and sends the control frame
    [0x08,0x02,0x33,0x00,0x32,0,0,0]. *)
Theorem adjust_brightness_zero_is_default (depth : nat) (dev : DeviceHandler)
    (w : world) :
  adjust_brightness depth dev (Some 0) = adjust_brightness depth dev None /\
  adjust_brightness (S depth) dev (Some 0) w =
    (ok tt,
     World (Some 4)
       (transfers w ++ [ctrl_of dev [0x08; 0x02; 0x33; 0x00; 0x32; 0x00; 0x00; 0x00]])
       (stdout w)).
Proof.
  split.
  - destruct depth; reflexivity.
  - exact (adjust_brightness_default dev depth (Some 0) w eq_refl).
Qed.

(** C7, at device index 0 with one device found: index 0 is taken for no
    index, the only device is selected, the power-off frame is sent to it
    and main returns, so the process ends with status 0 and prints
    nothing. *)
Theorem device_index_zero_selects_the_device `{Colors} (depth : nat) (d : usb_device) :
  let parsed := Args false None None None None true (Some 0) None None in
  ~ (1 <= 0 <= len [d]) /\
  main depth parsed [d] fresh =
    (ok tt,
     World None
       [get_active_configuration d;
        ctrl_transfer d 0x21 0x09 0x300 1 power_off_frame]
       []) /\
  exit_status (fst (main depth parsed [d] fresh)) = 0.
Proof.
  intros parsed. split; [lia|]. split; reflexivity.
Qed.

(** * Further properties of the style resolver *)

Lemma brightness_getitem_inv (b code : Z) :
  getitem_int brightness_map b = ok code ->
  (b = 1 /\ code = 0x08) \/ (b = 2 /\ code = 0x16) \/
  (b = 3 /\ code = 0x24) \/ (b = 4 /\ code = 0x32).
Proof.
  unfold getitem_int, brightness_map. simpl.
  destruct (Z.eqb_spec b 1); [intros E; inversion E; lia|].
  destruct (Z.eqb_spec b 2); [intros E; inversion E; lia|].
  destruct (Z.eqb_spec b 3); [intros E; inversion E; lia|].
  destruct (Z.eqb_spec b 4); [intros E; inversion E; lia|].
  discriminate.
Qed.

Lemma colours_getitem_inv (c : string) (code : Z) :
  getitem_str colours c = ok code -> In (c, code) colours.
Proof.
  unfold getitem_str, colours. simpl.
  repeat match goal with
         | |- context [String.eqb c ?k] =>
             destruct (String.eqb_spec c k);
               [intros E; inversion E; subst; simpl; tauto|]
         end.
  discriminate.
Qed.

(* Every effect name, with a colour letter or without, with a final
   newline or without, is matched with exactly these groups. *)
Lemma light_style_match_complete (p : string) (oc : option string) (tail : string) :
  In p (keys programs) ->
  match oc with Some c => In c (keys colours) | None => True end ->
  line_end tail ->
  light_style_match (p ++ match oc with Some c => c | None => "" end ++ tail)
    = Some (p, oc).
Proof.
  intros Hp Hc Ht. simpl in Hp.
  destruct oc as [c|].
  - simpl in Hc.
    destruct Ht as [-> | ->];
      repeat (destruct Hp as [<-|Hp];
              [repeat (destruct Hc as [<-|Hc]; [reflexivity|]); contradiction|]);
      contradiction.
  - destruct Ht as [-> | ->];
      repeat (destruct Hp as [<-|Hp]; [reflexivity|]); contradiction.
Qed.

(** X1: the grammar of style tokens, both ways: the pattern matches a token
    with first group p and colour group c exactly when p is an effect
    name, c (if present) a colour letter, and the token is p, then c, then
    nothing or one newline. *)
Theorem style_grammar (style p : string) (oc : option string) :
  light_style_match style = Some (p, oc) <->
  (In p (keys programs) /\
   exists tail, line_end tail /\
     match oc with
     | None => style = p ++ tail
     | Some c => In c (keys colours) /\ style = p ++ c ++ tail
     end).
Proof.
  split; [apply light_style_match_inv|].
  intros (Hp & tail & Ht & H).
  destruct oc as [c|].
  - destruct H as [Hc ->].
    exact (light_style_match_complete p (Some c) tail Hp Hc Ht).
  - subst style.
    exact (light_style_match_complete p None tail Hp I Ht).
Qed.

(* The frame of a token that parsed, byte by byte. *)
Lemma frame_shape (style : string) (b speed : Z) (f : frame) :
  get_light_style_code style b speed = ok f ->
  exists p oc pr br co p2,
    light_style_match style = Some (p, oc) /\
    f = (0x08, 0x02, pr, speed, br, co, p2, 0x00) /\
    In (p, pr, p2) effect_bytes /\
    getitem_int brightness_map b = ok br /\
    In co [0x00; 0x01; 0x02; 0x03; 0x04; 0x05; 0x06; 0x07; 0x08].
Proof.
  unfold get_light_style_code.
  destruct (light_style_match style) as [[p oc]|] eqn:Hm; [|discriminate].
  destruct (light_style_match_inv _ _ _ Hm) as (Hp & tail & _ & Hc).
  assert (Hcol : exists cc,
            match oc with
            | Some (String _ _ as c) => getitem_str colours c
            | _ => ok 0x08
            end = ok cc /\
            In cc [0x01; 0x02; 0x03; 0x04; 0x05; 0x06; 0x07; 0x08]).
  { destruct oc as [c|]; [|exists 0x08; split; [reflexivity|simpl; tauto]].
    destruct Hc as (Hc & _). simpl in Hc.
    repeat (destruct Hc as [<-|Hc];
            [eexists; split; [reflexivity|simpl; tauto]|]).
    contradiction. }
  destruct Hcol as (cc & -> & Hcc).
  destruct (getitem_int brightness_map b) as [e|br] eqn:Hb.
  - simpl in Hp.
    repeat (destruct Hp as [<-|Hp]; [cbn; discriminate|]). contradiction.
  - simpl in Hp. simpl in Hcc.
    repeat (destruct Hp as [<-|Hp];
            [cbn; intros E; inversion E; subst; clear E;
             do 6 eexists;
             (split; [reflexivity|]); (split; [reflexivity|]);
             (split; [simpl; tauto|]); (split; [reflexivity|]);
             simpl; tauto|]).
    contradiction.
Qed.

(** X2: every frame that the resolver returns starts with 0x08, 0x02 and
    ends with 0x00, carries the speed as it was given, the byte of the
    brightness level, a colour byte in 0..8 and the program and secondary
    bytes of its effect; its eight values are bytes exactly when the speed
    is one. *)
Theorem returned_frame_bytes (style : string) (b speed : Z) (f : frame) :
  get_light_style_code style b speed = ok f ->
  (exists pr br co p2,
      f = (0x08, 0x02, pr, speed, br, co, p2, 0x00) /\
      In pr (map snd programs) /\
      In br [0x08; 0x16; 0x24; 0x32] /\
      0 <= co <= 8 /\
      (p2 = 0 \/ p2 = 1)) /\
  (Forall (fun x => 0 <= x <= 255) (frame_bytes f) <-> 0 <= speed <= 255).
Proof.
  intros H.
  destruct (frame_shape style b speed f H)
    as (p & oc & pr & br & co & p2 & _ & -> & Hp & Hb & Hco).
  assert (Hpr : In pr (map snd programs) /\ (p2 = 0 \/ p2 = 1)).
  { simpl in Hp.
    repeat (destruct Hp as [E|Hp]; [inversion E; subst; simpl; tauto|]).
    contradiction. }
  assert (Hbr : In br [0x08; 0x16; 0x24; 0x32]).
  { apply brightness_getitem_inv in Hb. simpl. lia. }
  assert (Hco' : 0 <= co <= 8) by (simpl in Hco; lia).
  destruct Hpr as [Hpr Hp2].
  split.
  - exists pr, br, co, p2. tauto.
  - assert (Hpr' : 0 <= pr <= 255) by (simpl in Hpr; lia).
    assert (Hbr' : 0 <= br <= 255) by (simpl in Hbr; lia).
    cbn [frame_bytes]. split.
    + intros F. inversion F as [|? ? _ F1]; subst.
      inversion F1 as [|? ? _ F2]; subst.
      inversion F2 as [|? ? _ F3]; subst.
      inversion F3 as [|? ? Hs _]; subst. exact Hs.
    + intros Hs. repeat constructor; lia.
Qed.

Lemma returned_frame_bytes_witness :
  Forall (fun x => 0 <= x <= 255)
    (frame_bytes (0x08, 0x02, 0x06, 0x05, 0x24, 0x01, 0x00, 0x00)) <-> 0 <= 5 <= 255.
Proof.
  exact (proj2 (returned_frame_bytes "rippler" 3 5 _ eq_refl)).
Defined.

(** X3: no two effects share a frame: the program byte and the secondary
    byte of a returned frame are those of its effect in the table, and two
    tokens of different effects never resolve to the same frame, whatever
    their colour letters, levels and speeds (random and reactive, aurora
    and reactiveaurora share a program byte and differ in the secondary
    byte). *)
Theorem effects_have_distinct_frames (style1 style2 p1 p2 : string)
    (oc1 oc2 : option string) (b1 b2 speed1 speed2 : Z) (f : frame) :
  light_style_match style1 = Some (p1, oc1) ->
  light_style_match style2 = Some (p2, oc2) ->
  get_light_style_code style1 b1 speed1 = ok f ->
  get_light_style_code style2 b2 speed2 = ok f ->
  In (p1, frame_program f, frame_program2 f) effect_bytes /\ p1 = p2.
Proof.
  intros M1 M2 H1 H2.
  destruct (frame_shape _ _ _ _ H1) as (q1 & ? & pr1 & ? & ? & f1 & M1' & E1 & T1 & _).
  destruct (frame_shape _ _ _ _ H2) as (q2 & ? & pr2 & ? & ? & f2 & M2' & E2 & T2 & _).
  rewrite M1 in M1'. rewrite M2 in M2'.
  inversion M1'; subst q1. inversion M2'; subst q2.
  rewrite E1 in E2. inversion E2; subst.
  split; [exact T1|].
  simpl in T1, T2.
  repeat (destruct T1 as [T1|T1];
          [inversion T1; subst;
           repeat (destruct T2 as [T2|T2];
                   [inversion T2; subst; reflexivity || discriminate|]);
           contradiction|]).
  contradiction.
Qed.

Lemma effects_have_distinct_frames_witness :
  In ("rainbow", frame_program (0x08, 0x02, 0x05, 0x05, 0x24, 0x00, 0x00, 0x00),
      frame_program2 (0x08, 0x02, 0x05, 0x05, 0x24, 0x00, 0x00, 0x00)) effect_bytes /\
  "rainbow" = "rainbow".
Proof.
  exact (effects_have_distinct_frames "rainbow" "rainbowr" "rainbow" "rainbow"
           None (Some "r") 3 3 5 5 _ eq_refl eq_refl eq_refl eq_refl).
Defined.

(* Runs the pattern on the tokens of the goal, which are closed. *)
Ltac eval_style_match :=
  repeat match goal with
         | |- context [light_style_match ?s] =>
             let v := eval vm_compute in (light_style_match s) in
             change (light_style_match s) with v
         end;
  cbn [rbind getitem_str assoc String.eqb Ascii.eqb Bool.eqb programs colours ok raise].

(** X4: rainbow, marquee and wave ignore the colour letter: the token with
    a letter resolves to what the bare effect name resolves to, frame or
    exception, at every level and speed. *)
Theorem forced_colour_ignores_letter (p c : string) (b speed : Z) :
  In p ["rainbow"; "marquee"; "wave"] ->
  In c (keys colours) ->
  get_light_style_code (p ++ c) b speed = get_light_style_code p b speed.
Proof.
  intros Hp Hc. simpl in Hp, Hc.
  repeat (destruct Hp as [<-|Hp];
          [repeat (destruct Hc as [<-|Hc];
                   [unfold get_light_style_code; eval_style_match;
                    destruct (getitem_int brightness_map b) as [e|code];
                    reflexivity|]);
           contradiction|]).
  contradiction.
Qed.

Lemma forced_colour_ignores_letter_witness :
  get_light_style_code "marqueeg" 2 7 = get_light_style_code "marquee" 2 7.
Proof.
  apply (forced_colour_ignores_letter "marquee" "g" 2 7); simpl; tauto.
Defined.

(** X5: on the nine other effects the colour letter is the colour byte: a
    bare effect name gives colour byte 0x08, and the name with a letter of
    the colour table gives the byte of that letter, at every level 1..4
    and every speed. *)
Theorem colour_letter_is_colour_byte (p : string) (b speed : Z) :
  In p ["breathing"; "random"; "reactive"; "ripple"; "reactiveripple";
        "fireworks"; "raindrop"; "aurora"; "reactiveaurora"] ->
  1 <= b <= 4 ->
  (exists f, get_light_style_code p b speed = ok f /\ frame_colour f = 0x08) /\
  (forall c code,
      getitem_str colours c = ok code ->
      exists f, get_light_style_code (p ++ c) b speed = ok f /\
                frame_colour f = code).
Proof.
  intros Hp Hb.
  destruct (brightness_getitem_ok b Hb) as (br & Hbr & _).
  split.
  - simpl in Hp.
    repeat (destruct Hp as [<-|Hp];
            [unfold get_light_style_code; eval_style_match; rewrite Hbr;
             eexists; split; reflexivity|]).
    contradiction.
  - intros c code Hc. apply colours_getitem_inv in Hc. simpl in Hp, Hc.
    repeat (destruct Hp as [<-|Hp];
            [repeat (destruct Hc as [Hc|Hc];
                     [inversion Hc; subst;
                      unfold get_light_style_code; eval_style_match; rewrite Hbr;
                      eexists; split; reflexivity|]);
             contradiction|]).
    contradiction.
Qed.

Lemma colour_letter_is_colour_byte_witness :
  exists f, get_light_style_code "fireworkst" 1 9 = ok f /\ frame_colour f = 0x06.
Proof.
  apply (proj2 (colour_letter_is_colour_byte "fireworks" 1 9
                  ltac:(simpl; tauto) ltac:(lia)) "t" 0x06).
  reflexivity.
Defined.

(** X6: the speed and the level reach one byte each: when a token resolves
    to a frame at one level and speed, it resolves at every level of the
    table and every speed to the same frame with the speed byte and the
    brightness byte replaced. *)
Theorem frame_varies_in_speed_and_level_only (style : string) (b speed : Z)
    (b' speed' code' : Z) (b0 b1 pr s br co p2 sv : Z) :
  get_light_style_code style b speed = ok (b0, b1, pr, s, br, co, p2, sv) ->
  getitem_int brightness_map b' = ok code' ->
  get_light_style_code style b' speed' = ok (b0, b1, pr, speed', code', co, p2, sv).
Proof.
  unfold get_light_style_code. intros H Hb'.
  destruct (light_style_match style) as [[p oc]|]; [|discriminate].
  destruct (getitem_str programs p) as [e|x]; cbn [rbind] in *; [discriminate|].
  destruct (match oc with Some (String _ _ as c) => _ | _ => _ end) as [e|y];
    cbn [rbind] in *; [discriminate|].
  rewrite Hb'. cbn [rbind].
  destruct (getitem_int brightness_map b) as [e|z]; cbn [rbind] in H; [discriminate|].
  repeat match goal with
         | H : context [if ?t then _ else _] |- _ => destruct t
         end;
    cbn in *; inversion H; subst; reflexivity.
Qed.

Lemma frame_varies_in_speed_and_level_only_witness :
  get_light_style_code "rippler" 1 10 =
    ok (0x08, 0x02, 0x06, 10, 0x08, 0x01, 0x00, 0x00).
Proof.
  apply (frame_varies_in_speed_and_level_only "rippler" 3 5 1 10 0x08
           0x08 0x02 0x06 0x05 0x24 0x01 0x00 0x00); reflexivity.
Defined.

(** * Further properties of the handler and the orchestrator *)

(** X7: bulk_write makes exactly [times] writes of the same payload to the
    device of the handler, and nothing else; with [times] zero or negative
    it makes none and leaves the world as it was. *)
Theorem bulk_write_count (dev : DeviceHandler) (times : Z) (v : list Z) (w : world) :
  bulk_write dev times v w =
    (ok tt,
     World (brightness w)
       (transfers w ++ repeat (write (_device dev) v) (Z.to_nat times))
       (stdout w)) /\
  (times <= 0 -> bulk_write dev times v w = (ok tt, w)).
Proof.
  unfold bulk_write. rewrite bulk_write_loop_run. split; [reflexivity|].
  intros Ht. replace (Z.to_nat times) with 0%nat by lia.
  cbn [repeat]. rewrite app_nil_r. now destruct w.
Qed.

Lemma bulk_write_count_witness :
  bulk_write (handler_of example_device) (-3) [0xFF] fresh = (ok tt, fresh).
Proof.
  apply (proj2 (bulk_write_count (handler_of example_device) (-3) [0xFF] fresh)). lia.
Defined.

Section OrchestratorMore.

Context `{Colors}.

Variable dev : DeviceHandler.

(* Colour-table calls on a set brightness: each one sends its upload. *)
Lemma do_calls_color_set (depth : nat) (cs : list call) (vs : list (list Z))
    (w : world) (z : Z) :
  Forall2 (fun c v => color_vector_of c = Some (ok v)) cs vs ->
  truthy_int (brightness w) = Some z ->
  do_calls depth dev cs w =
    (ok tt,
     World (brightness w)
       (transfers w ++ flat_map (color_upload dev) vs)
       (stdout w)).
Proof.
  intros F. revert w. induction F as [|c v cs vs Hc F IH]; intros w Hz.
  - cbn. unfold ret. rewrite app_nil_r. now destruct w.
  - cbn [do_calls flat_map].
    erewrite bind_ok.
    2:{ rewrite (do_call_color dev depth c (ok v) Hc).
        exact (color_table_setup_set dev (ok v) depth w z Hz). }
    rewrite IH by exact Hz. cbn [brightness transfers stdout].
    unfold color_upload. cbn [app]. rewrite <- !app_assoc. reflexivity.
Qed.

End OrchestratorMore.

(** X8: any number of colour-table calls on a fresh orchestrator share one
    brightness write: the transfers are the brightness frame of level 4
    once, then for each call the persist frame and 8 bulk writes of its
    vector, in the order of the calls; the brightness ends as 4. *)
Theorem color_calls_share_one_brightness_write `{Colors} (depth : nat)
    (dev : DeviceHandler) (cs : list call) (vs : list (list Z)) :
  Forall2 (fun c v => color_vector_of c = Some (ok v)) cs vs ->
  cs <> [] ->
  do_calls (S (S depth)) dev cs fresh =
    (ok tt,
     World (Some 4)
       (ctrl_of dev (brightness_frame 0x32) :: flat_map (color_upload dev) vs)
       []).
Proof.
  intros F Hne. destruct F as [|c v cs vs Hc F]; [congruence|].
  cbn [do_calls flat_map].
  erewrite bind_ok.
  2:{ rewrite (do_call_color dev (S (S depth)) c (ok v) Hc).
      exact (color_table_setup_unset dev (ok v) depth fresh eq_refl). }
  rewrite (do_calls_color_set dev (S (S depth)) cs vs _ 4 F) by reflexivity.
  cbn [brightness transfers stdout fresh app]. unfold color_upload.
  cbn [app]. reflexivity.
Qed.

Lemma color_calls_share_one_brightness_write_witness :
  @do_calls example_colors 2 (handler_of example_device)
     [CallMono "red"; CallHAlt "red" "red"] fresh =
    (ok tt,
     World (Some 4)
       (ctrl_of (handler_of example_device) (brightness_frame 0x32)
          :: flat_map (color_upload (handler_of example_device))
               [[0xFF; 0x00; 0x00]; [0xFF; 0x00; 0x00]])
       []).
Proof.
  apply (@color_calls_share_one_brightness_write example_colors 0
           (handler_of example_device)
           [CallMono "red"; CallHAlt "red" "red"]
           [[0xFF; 0x00; 0x00]; [0xFF; 0x00; 0x00]]).
  - repeat constructor.
  - discriminate.
Defined.

(** X9: adjust_brightness stores the level before it looks it up: a level
    outside 0..4 raises the missing key of the brightness table and sends
    nothing, but stays stored as the brightness.  A colour-table call made
    after that on the same orchestrator sends the persist frame and its 8
    bulk writes without any brightness write. *)
Theorem invalid_level_is_stored `{Colors} (depth : nat) (dev : DeviceHandler)
    (b : Z) (c : call) (v : list Z) (w : world) :
  ~ (0 <= b <= 4) ->
  color_vector_of c = Some (ok v) ->
  let w1 := World (Some b) (transfers w) (stdout w) in
  adjust_brightness depth dev (Some b) w = (raise (KeyError (IntKey b)), w1) /\
  do_call depth dev c w1 =
    (ok tt, World (Some b) (transfers w ++ color_upload dev v) (stdout w)) /\
  ~ brightness_before_bulk (color_upload dev v).
Proof.
  intros Hb Hc w1. split; [|split].
  - rewrite (adjust_brightness_level dev depth b w) by lia.
    rewrite brightness_getitem_err by lia. reflexivity.
  - rewrite (do_call_color dev depth c (ok v) Hc).
    rewrite (color_table_setup_set dev (ok v) depth w1 b)
      by (apply truthy_int_some; lia).
    unfold w1, color_upload, ok. cbn [brightness transfers stdout].
    rewrite <- app_assoc. reflexivity.
  - intros Hs.
    destruct (Hs [ctrl_of dev persist_frame] (_device dev) v
                (repeat (write (_device dev) v) 7) eq_refl)
      as (x & [Hx|[]] & (rt & r & vl & i & code & E)).
    subst x. unfold ctrl_of, persist_frame in E. inversion E.
Qed.

Lemma invalid_level_is_stored_witness :
  @do_call example_colors 0 (handler_of example_device) (CallMono "red")
     (World (Some 7) [] []) =
    (ok tt,
     World (Some 7) (color_upload (handler_of example_device) [0xFF; 0x00; 0x00]) []).
Proof.
  exact (proj1 (proj2 (@invalid_level_is_stored example_colors 0
                         (handler_of example_device) 7 (CallMono "red")
                         [0xFF; 0x00; 0x00] fresh ltac:(lia) eq_refl))).
Defined.

(** ** Calls only add to the sequence *)

Lemma appends_silent {A} (P : usb_call -> Prop) (c : M A) : silent c -> appends P c.
Proof.
  intros Hc w. exists []. destruct (Hc w) as [E _].
  rewrite E, app_nil_r. auto.
Qed.

Lemma appends_bind {A B} (P : usb_call -> Prop) (c : M A) (f : A -> M B) :
  appends P c -> (forall a, appends P (f a)) -> appends P (x <- c ;; f x).
Proof.
  intros Hc Hf w. unfold bind. destruct (Hc w) as (l1 & E1 & F1).
  destruct (c w) as [[e|a] w1]; cbn [snd] in *.
  - exists l1. auto.
  - destruct (Hf a w1) as (l2 & E2 & F2).
    exists (l1 ++ l2)%list. rewrite E2, E1, app_assoc.
    split; [reflexivity|]. apply Forall_app. auto.
Qed.

Lemma appends_usb (P : usb_call -> Prop) (c : usb_call) : P c -> appends P (usb c).
Proof.
  intros Hc w. exists [c]. cbn. auto.
Qed.

Lemma appends_set_brightness (P : usb_call -> Prop) (b : option Z) :
  appends P (set_brightness b).
Proof.
  intros w. exists []. cbn. rewrite app_nil_r. auto.
Qed.

Lemma appends_get_brightness (P : usb_call -> Prop) : appends P get_brightness.
Proof.
  intros w. exists []. cbn. rewrite app_nil_r. auto.
Qed.

Lemma frame_bytes_length (f : frame) : List.length (frame_bytes f) = 8%nat.
Proof.
  destruct f as [[[[[[[b0 b1] b2] b3] b4] b5] b6] b7]. reflexivity.
Qed.

Section Appends.

Context `{Colors}.

Variable h : DeviceHandler.

Lemma appends_ctrl_write (payload : list Z) :
  List.length payload = 8%nat -> appends (handler_call h) (ctrl_write h payload).
Proof.
  intros Hl. apply appends_usb. left. exists payload. auto.
Qed.

Lemma appends_bulk_write (times : Z) (v : list Z) :
  appends (handler_call h) (bulk_write h times v).
Proof.
  intros w. unfold bulk_write. rewrite bulk_write_loop_run. cbn [snd transfers].
  eexists. split; [reflexivity|].
  apply Forall_forall. intros x Hx. apply repeat_spec in Hx. subst x.
  right. now exists v.
Qed.

Lemma appends_keyboard_style (style : string) (b speed : Z) :
  appends (handler_call h) (keyboard_style h style b speed).
Proof.
  apply appends_bind; [apply appends_silent, silent_lift|].
  intros code. apply appends_ctrl_write, frame_bytes_length.
Qed.

Lemma appends_adjust_brightness (depth : nat) (b : option Z) :
  appends (handler_call h) (adjust_brightness depth h b).
Proof.
  revert b. induction depth as [|d IH]; intros b; cbn [adjust_brightness];
    (destruct (truthy_int b) as [z|];
     [ apply appends_bind; [apply appends_set_brightness|]; intros _;
       apply appends_bind; [apply appends_get_brightness|]; intros sb;
       apply appends_bind; [apply appends_silent, silent_lift|]; intros code;
       now apply appends_ctrl_write
     | ]).
  - apply appends_silent, silent_throw.
  - apply IH.
Qed.

Lemma appends_color_table_setup (vec : result (list Z)) (depth : nat) :
  appends (handler_call h) (color_table_setup vec depth h).
Proof.
  induction depth as [|d IH]; cbn [color_table_setup];
    (apply appends_bind; [apply appends_get_brightness|]; intros b;
     destruct (truthy_int b) as [z|];
     [ apply appends_bind; [now apply appends_ctrl_write|]; intros _;
       apply appends_bind; [apply appends_silent, silent_lift|]; intros v;
       apply appends_bulk_write
     | ]).
  - apply appends_silent, silent_throw.
  - apply appends_bind; [apply appends_adjust_brightness|]. intros _. exact IH.
Qed.

Lemma appends_main_operation (depth : nat) (parsed : args) :
  appends (handler_call h)
    (if disable parsed then
       disable_keyboard h
     else
       match truthy_str (style parsed) with
       | Some style =>
           let speed := match truthy_int (speed parsed) with
                        | Some s => s
                        | None => 5
                        end in
           match truthy_int (brightness_arg parsed) with
           | Some b => keyboard_style h style b speed
           | None => keyboard_style h style default_brightness speed
           end
       | None =>
           (match truthy_int (brightness_arg parsed) with
            | Some b => adjust_brightness depth h (Some b)
            | None => ret tt
            end) ;;
           match truthy_str (color parsed), h_alt parsed, v_alt parsed with
           | Some c, _, _ => mono_color_setup depth h c
           | None, Some (a, b), _ => h_alt_color_setup depth h a b
           | None, None, Some (a, b) => v_alt_color_setup depth h a b
           | None, None, None => print "Invalid or absent command"
           end
       end).
Proof.
  destruct (disable parsed); [now apply appends_ctrl_write|].
  destruct (truthy_str (style parsed)) as [st|].
  - cbv zeta. destruct (truthy_int (brightness_arg parsed));
      apply appends_keyboard_style.
  - apply appends_bind.
    + destruct (truthy_int (brightness_arg parsed)).
      * apply appends_adjust_brightness.
      * apply appends_silent, silent_ret.
    + intros _.
      destruct (truthy_str (color parsed)) as [c|];
        [rewrite mono_color_setup_eq; apply appends_color_table_setup|].
      destruct (h_alt parsed) as [[a b]|];
        [rewrite h_alt_color_setup_eq; apply appends_color_table_setup|].
      destruct (v_alt parsed) as [[a b]|];
        [rewrite v_alt_color_setup_eq; apply appends_color_table_setup|].
      apply appends_silent, silent_print.
Qed.

End Appends.


(** * Further properties of main *)

(* Once a device is selected, main reads its configuration and goes on
   through its handler. *)
Lemma main_after_selection `{Colors} (depth : nat) (parsed : args)
    (devices : list usb_device) (d : usb_device) :
  list_devices parsed = false ->
  select_device parsed devices fresh = (ok d, fresh) ->
  exists l,
    transfers (snd (main depth parsed devices fresh))
      = get_active_configuration d :: l /\
    Forall (handler_call (handler_of d)) l.
Proof.
  intros Hl Es. unfold main. rewrite Hl.
  rewrite (bind_ok _ _ _ _ _ Es).
  rewrite (bind_ok _ _ _ _ _ (new_DeviceHandler_run d fresh)).
  destruct (appends_main_operation (handler_of d) depth parsed
              (World (brightness fresh)
                 (transfers fresh ++ [get_active_configuration d])
                 (stdout fresh)))
    as (l & El & Fl).
  exists l. split; [exact El|exact Fl].
Qed.


(** X11: the device index counts from 1: an index i with
    1 <= i <= number of devices selects the i-th device found, prints
    nothing, and that device is the one whose configuration main reads. *)
Theorem device_index_is_one_based `{Colors} (depth : nat) (parsed : args)
    (devices : list usb_device) (i : Z) :
  list_devices parsed = false ->
  device parsed = Some i ->
  1 <= i <= len devices ->
  exists d l,
    nth_error devices (Z.to_nat i - 1) = Some d /\
    select_device parsed devices fresh = (ok d, fresh) /\
    transfers (snd (main depth parsed devices fresh))
      = get_active_configuration d :: l.
Proof.
  intros Hl Hd Hi.
  assert (Es : exists d, nth_error devices (Z.to_nat i - 1) = Some d /\
                         select_device parsed devices fresh = (ok d, fresh)).
  { unfold select_device. rewrite Hd, (truthy_int_some i) by lia.
    assert (E : ((i <? 1)%Z || (i - 1 >=? len devices)%Z)%bool = false).
    { apply orb_false_iff. split; lia. }
    rewrite E. unfold lift, getitem_list.
    replace (Z.to_nat (i - 1)) with (Z.to_nat i - 1)%nat by lia.
    destruct (nth_error devices (Z.to_nat i - 1)) as [d|] eqn:En.
    - exists d. auto.
    - apply nth_error_None in En. unfold len in Hi. lia. }
  destruct Es as (d & En & Es).
  destruct (main_after_selection depth parsed devices d Hl Es) as (l & El & _).
  exists d, l. auto.
Qed.

Lemma device_index_is_one_based_witness :
  exists d l,
    nth_error [UsbDevice 0x048d 0x600b; example_device] (Z.to_nat 2 - 1) = Some d /\
    select_device (Args false None None None None true (Some 2) None None)
      [UsbDevice 0x048d 0x600b; example_device] fresh = (ok d, fresh) /\
    transfers (snd (@main example_colors 0
                      (Args false None None None None true (Some 2) None None)
                      [UsbDevice 0x048d 0x600b; example_device] fresh))
      = get_active_configuration d :: l.
Proof.
  apply (@device_index_is_one_based example_colors 0
           (Args false None None None None true (Some 2) None None)
           [UsbDevice 0x048d 0x600b; example_device] 2);
    [reflexivity|reflexivity|cbn; lia].
Defined.




(* With one device found and no index, that device is selected. *)
Lemma select_single_device (parsed : args) (d : usb_device) (w : world) :
  truthy_int (device parsed) = None ->
  select_device parsed [d] w = (ok d, w).
Proof.
  intros Hd. unfold select_device. rewrite Hd. reflexivity.
Qed.

(** X13: a style wins over everything but --disable: with one device found,
    main sends exactly one control transfer, the frame of the style at the
    given brightness (3 when absent or 0) and speed (5 when absent or 0);
    it sends no brightness frame and no colour table and leaves the
    brightness unset.  When the style does not resolve, the configuration
    of the device was read, nothing is sent and the exception leaves
    main. *)
Theorem main_style_sends_one_frame `{Colors} (depth : nat) (parsed : args)
    (d : usb_device) (st : string) :
  list_devices parsed = false ->
  disable parsed = false ->
  truthy_int (device parsed) = None ->
  truthy_str (style parsed) = Some st ->
  main depth parsed [d] fresh =
    match get_light_style_code st (style_brightness parsed) (style_speed parsed) with
    | inl e => (raise e, World None [get_active_configuration d] [])
    | inr f =>
        (ok tt,
         World None
           [get_active_configuration d;
            ctrl_transfer d 0x21 0x09 0x300 1 (frame_bytes f)]
           [])
    end.
Proof.
  intros Hl Hdis Hd Hst. unfold main. rewrite Hl.
  rewrite (bind_ok _ _ _ _ _ (select_single_device parsed d fresh Hd)).
  rewrite (bind_ok _ _ _ _ _ (new_DeviceHandler_run d fresh)).
  rewrite Hdis, Hst. cbv zeta. unfold style_brightness, style_speed.
  destruct (truthy_int (brightness_arg parsed));
    unfold keyboard_style, bind, lift, ctrl_write, usb;
    destruct (get_light_style_code st _ _); reflexivity.
Qed.

Lemma main_style_sends_one_frame_witness :
  @main example_colors 0
     (Args false (Some "red") None None (Some "rippler") false None (Some 0) None)
     [example_device] fresh =
    (ok tt,
     World None
       [get_active_configuration example_device;
        ctrl_transfer example_device 0x21 0x09 0x300 1
          [0x08; 0x02; 0x06; 0x05; 0x24; 0x01; 0x00; 0x00]]
       []).
Proof.
  exact (@main_style_sends_one_frame example_colors 0
           (Args false (Some "red") None None (Some "rippler") false None (Some 0) None)
           example_device "rippler" eq_refl eq_refl eq_refl eq_refl).
Defined.

(** X14: a colour with a brightness level: with one device found, level b
    in 1..4 and a vector that the colour module returns, main sends the
    brightness frame of level b (not of level 4), then the persist frame,
    then 8 bulk writes of the vector, and stores b; --color goes before
    --h-alt, and --h-alt before --v-alt.  No nested call is needed. *)
Theorem main_color_with_level `{Colors} (depth : nat) (parsed : args)
    (d : usb_device) (b : Z) (v : list Z) :
  list_devices parsed = false ->
  disable parsed = false ->
  truthy_int (device parsed) = None ->
  truthy_str (style parsed) = None ->
  brightness_arg parsed = Some b ->
  1 <= b <= 4 ->
  main_color_vector parsed = Some (ok v) ->
  exists code,
    getitem_int brightness_map b = ok code /\
    main depth parsed [d] fresh =
      (ok tt,
       World (Some b)
         (get_active_configuration d
            :: ctrl_of (handler_of d) (brightness_frame code)
            :: color_upload (handler_of d) v)
         []).
Proof.
  intros Hl Hdis Hd Hst Hb Hr Hv.
  destruct (brightness_getitem_ok b Hr) as (code & Hcode & _).
  exists code. split; [exact Hcode|].
  unfold main. rewrite Hl.
  rewrite (bind_ok _ _ _ _ _ (select_single_device parsed d fresh Hd)).
  rewrite (bind_ok _ _ _ _ _ (new_DeviceHandler_run d fresh)).
  rewrite Hdis, Hst, Hb, (truthy_int_some b) by lia.
  erewrite bind_ok.
  2:{ rewrite adjust_brightness_level by lia. rewrite Hcode. reflexivity. }
  unfold main_color_vector in Hv.
  assert (G : forall vec, vec = ok v ->
            color_table_setup vec depth (handler_of d)
              (World (Some b)
                 ([get_active_configuration d]
                    ++ [ctrl_of (handler_of d) (brightness_frame code)]) []) =
            (ok tt,
             World (Some b)
               (get_active_configuration d
                  :: ctrl_of (handler_of d) (brightness_frame code)
                  :: color_upload (handler_of d) v) [])).
  { intros vec ->.
    rewrite (color_table_setup_set (handler_of d) (ok v) depth _ b)
      by (apply truthy_int_some; lia).
    reflexivity. }
  cbn [brightness transfers stdout fresh app] in *.
  destruct (truthy_str (color parsed)) as [c|].
  - rewrite mono_color_setup_eq. apply G. congruence.
  - destruct (h_alt parsed) as [[x y]|].
    + rewrite h_alt_color_setup_eq. apply G. congruence.
    + destruct (v_alt parsed) as [[x y]|]; [|discriminate].
      rewrite v_alt_color_setup_eq. apply G. congruence.
Qed.

Lemma main_color_with_level_witness :
  exists code,
    getitem_int brightness_map 2 = ok code /\
    @main example_colors 0
       (Args false (Some "red") None None None false None (Some 2) None)
       [example_device] fresh =
      (ok tt,
       World (Some 2)
         (get_active_configuration example_device
            :: ctrl_of (handler_of example_device) (brightness_frame code)
            :: color_upload (handler_of example_device) [0xFF; 0x00; 0x00])
         []).
Proof.
  apply (@main_color_with_level example_colors 0
           (Args false (Some "red") None None None false None (Some 2) None)
           example_device 2 [0xFF; 0x00; 0x00]);
    solve [reflexivity | lia].
Defined.

(** X15: an empty colour or style counts as absent: with no style, no
    colour, no alternating colours and no brightness, main reads the
    configuration of the single device, sends nothing, prints
    "Invalid or absent command" and returns, so that the process ends with
    status 0. *)
Theorem main_absent_command `{Colors} (depth : nat) (parsed : args) (d : usb_device) :
  list_devices parsed = false ->
  disable parsed = false ->
  truthy_int (device parsed) = None ->
  truthy_str (style parsed) = None ->
  truthy_int (brightness_arg parsed) = None ->
  main_color_vector parsed = None ->
  main depth parsed [d] fresh =
    (ok tt, World None [get_active_configuration d] ["Invalid or absent command"]) /\
  exit_status (fst (main depth parsed [d] fresh)) = 0.
Proof.
  intros Hl Hdis Hd Hst Hb Hv.
  assert (E : main depth parsed [d] fresh =
              (ok tt, World None [get_active_configuration d]
                        ["Invalid or absent command"])).
  { unfold main. rewrite Hl.
    rewrite (bind_ok _ _ _ _ _ (select_single_device parsed d fresh Hd)).
    rewrite (bind_ok _ _ _ _ _ (new_DeviceHandler_run d fresh)).
    rewrite Hdis, Hst, Hb. unfold main_color_vector in Hv.
    destruct (truthy_str (color parsed)); [discriminate|].
    destruct (h_alt parsed) as [[x y]|]; [discriminate|].
    destruct (v_alt parsed) as [[x y]|]; [discriminate|].
    reflexivity. }
  split; [exact E|]. now rewrite E.
Qed.

Lemma main_absent_command_witness :
  @main example_colors 0 (Args false (Some "") None None None false None None None)
     [example_device] fresh =
    (ok tt,
     World None [get_active_configuration example_device]
       ["Invalid or absent command"]) /\
  exit_status
    (fst (@main example_colors 0
            (Args false (Some "") None None None false None None None)
            [example_device] fresh)) = 0.
Proof.
  apply (@main_absent_command example_colors 0
           (Args false (Some "") None None None false None None None)
           example_device); reflexivity.
Defined.

(** * Properties of the discovery of devices *)

Lemma map_filter_bus (vp : vendor_products_t) (bus : list bus_device) :
  map bus_dev (filter (fun b => match_device vp (bus_dev b)) bus) =
  filter (match_device vp) (map bus_dev bus).
Proof.
  induction bus as [|x bus IH]; [reflexivity|].
  cbn [filter map]. destruct (match_device vp (bus_dev x)); cbn [map]; now rewrite IH.
Qed.

(** X16: get_devices returns the devices of the bus that the table lets
    through, in the order of the bus.  It detaches a kernel driver only on
    a platform whose name does not start with "win", only from interface
    1, and only for a device that the table lets through and whose driver
    is active; every such device is detached. *)
Theorem get_devices_filters_and_detaches (vp : vendor_products_t)
    (platform : string) (bus : list bus_device) :
  fst (get_devices vp platform bus) = filter (match_device vp) (map bus_dev bus) /\
  forall d i,
    In (detach_kernel_driver d i) (snd (get_devices vp platform bus)) <->
    (i = 1 /\ startswith platform "win" = false /\
     In (BusDevice d true) bus /\ match_device vp d = true).
Proof.
  split; [apply map_filter_bus|].
  intros d i. unfold get_devices. cbn [snd].
  destruct (startswith platform "win"); cbn [negb].
  - split; [intros []|intros (_ & E & _); discriminate].
  - rewrite in_flat_map. split.
    + intros (x & Hx & Hin). apply filter_In in Hx. destruct Hx as [Hb Hm].
      destruct Hin as [E|Hin]; [discriminate|].
      destruct x as [xd k]. cbn [bus_dev kernel_driver_active] in *.
      destruct k; [|contradiction].
      destruct Hin as [E|[]]. inversion E; subst. auto.
    + intros (-> & _ & Hb & Hm). exists (BusDevice d true). split.
      * apply filter_In. auto.
      * cbn. auto.
Qed.

(** X17: the table that main builds from --vendor and --product, and the
    devices it lets through: the vendor must be the one given, or 0x048d
    when none is given; the product must be the one given, or, when
    neither is given, one of 0xce00, 0x600b, 0x7001; a vendor given
    without a product lets every product of that vendor through.  An empty
    string counts as not given. *)
Theorem vendor_products_selection (int0 : string -> result Z)
    (vendor product : option string) (vp : vendor_products_t) (d : usb_device) :
  vendor_products_of int0 vendor product = ok vp ->
  (match_device vp d = true <->
   match truthy_str vendor with
   | Some v => int0 v = ok (idVendor d)
   | None => idVendor d = 0x048d
   end /\
   match truthy_str product, truthy_str vendor with
   | Some p, _ => int0 p = ok (idProduct d)
   | None, Some _ => True
   | None, None => In (idProduct d) [0xce00; 0x600b; 0x7001]
   end).
Proof.
  unfold vendor_products_of, match_device, ok, raise.
  destruct (truthy_str vendor) as [v|]; destruct (truthy_str product) as [p|].
  - destruct (int0 v) as [e|nv]; cbn [rbind]; [discriminate|].
    destruct (int0 p) as [e|np]; cbn [rbind]; [discriminate|].
    intros E. inversion E; subst. cbn [assoc].
    destruct (Z.eqb_spec (idVendor d) nv) as [Ev|Ev]; cbn [existsb].
    + rewrite orb_false_r.
      destruct (Z.eqb_spec (idProduct d) np) as [Ep|Ep].
      * split; [intros _; split; congruence|reflexivity].
      * split; [discriminate|intros [_ F]; inversion F; congruence].
    + split; [discriminate|intros [F _]; inversion F; congruence].
  - destruct (int0 v) as [e|nv]; cbn [rbind]; [discriminate|].
    intros E. inversion E; subst. cbn [assoc].
    destruct (Z.eqb_spec (idVendor d) nv) as [Ev|Ev].
    + split; [intros _; split; [congruence|exact I]|reflexivity].
    + split; [discriminate|intros [F _]; inversion F; congruence].
  - destruct (int0 p) as [e|np]; cbn [rbind]; [discriminate|].
    intros E. inversion E; subst. cbn [assoc].
    destruct (Z.eqb_spec (idVendor d) 0x048d) as [Ev|Ev]; cbn [existsb].
    + rewrite orb_false_r.
      destruct (Z.eqb_spec (idProduct d) np) as [Ep|Ep].
      * split; [intros _; split; congruence|reflexivity].
      * split; [discriminate|intros [_ F]; inversion F; congruence].
    + split; [discriminate|intros [F _]; contradiction].
  - intros E. inversion E; subst. cbn [assoc].
    destruct (Z.eqb_spec (idVendor d) 0x048d) as [Ev|Ev]; cbn [existsb].
    + rewrite orb_false_r, !orb_true_iff, !Z.eqb_eq. cbn [In].
      split; [intros G; split; [exact Ev|]|intros [_ G]];
        (destruct G as [G|[G|G]]; [| |try destruct G as [G|[]]]; auto).
    + split; [discriminate|intros [F _]; contradiction].
Qed.

Lemma vendor_products_selection_witness :
  match_device [(0x048d, None)] (UsbDevice 0x048d 0x1234) = true <->
  example_int0 "0x048d" = ok 0x048d /\ True.
Proof.
  exact (vendor_products_selection example_int0 (Some "0x048d") (Some "")
           [(0x048d, None)] (UsbDevice 0x048d 0x1234) eq_refl).
Defined.

(** * Further edge behaviour *)

(** X18: one newline after a token is not seen: an effect name, with a
    colour letter or without, followed by a newline resolves to what it
    resolves to without the newline, at every level and speed. *)
Theorem final_newline_is_ignored (p : string) (oc : option string) (b speed : Z) :
  In p (keys programs) ->
  match oc with Some c => In c (keys colours) | None => True end ->
  get_light_style_code
    (p ++ match oc with Some c => c | None => "" end ++ String Re.newline "") b speed =
  get_light_style_code
    (p ++ match oc with Some c => c | None => "" end ++ "") b speed.
Proof.
  intros Hp Hc. unfold get_light_style_code.
  rewrite (light_style_match_complete p oc (String Re.newline "") Hp Hc
             (or_intror eq_refl)).
  rewrite (light_style_match_complete p oc "" Hp Hc (or_introl eq_refl)).
  reflexivity.
Qed.

Lemma final_newline_is_ignored_witness :
  get_light_style_code ("aurora" ++ "b" ++ String Re.newline "") 4 1 =
  get_light_style_code ("aurora" ++ "b" ++ "") 4 1.
Proof.
  apply (final_newline_is_ignored "aurora" (Some "b") 4 1); simpl; tauto.
Defined.

(** X19: when no device can be selected, main prints one line and leaves
    with status 1 before it reads a configuration or sends anything.  That
    is the case for an index that is not 0 and lies outside 1..n
    ("Device #i does not exist, there are n devices."), and, with no index
    or index 0, for no device found ("No device found") and for more than
    one ("Found multiple devices, ..."). *)
Theorem selection_failure_exits_before_io `{Colors} (depth : nat) (parsed : args)
    (devices : list usb_device) :
  list_devices parsed = false ->
  match truthy_int (device parsed) with
  | Some i => i < 1 \/ len devices < i
  | None => len devices <> 1
  end ->
  main depth parsed devices fresh =
    (raise (SystemExit 1),
     World None []
       [match truthy_int (device parsed) with
        | Some i =>
            "Device #" ++ str i ++ " does not exist, there are "
              ++ str (len devices) ++ " devices."
        | None =>
            if (len devices =? 0)%Z then "No device found"
            else "Found multiple devices, please use -d to select one and -l to list them"
        end]) /\
  exit_status (fst (main depth parsed devices fresh)) = 1.
Proof.
  intros Hl Hs.
  assert (E : main depth parsed devices fresh =
    (raise (SystemExit 1),
     World None []
       [match truthy_int (device parsed) with
        | Some i =>
            "Device #" ++ str i ++ " does not exist, there are "
              ++ str (len devices) ++ " devices."
        | None =>
            if (len devices =? 0)%Z then "No device found"
            else "Found multiple devices, please use -d to select one and -l to list them"
        end])).
  { unfold main, select_device. rewrite Hl.
    destruct (truthy_int (device parsed)) as [i|].
    - assert (B : ((i <? 1)%Z || (i - 1 >=? len devices)%Z)%bool = true).
      { apply orb_true_iff. destruct Hs; [left|right]; lia. }
      rewrite B. reflexivity.
    - destruct (Z.eqb_spec (len devices) 0) as [E0|E0]; [reflexivity|].
      assert (G : (len devices >? 1)%Z = true).
      { apply Z.gtb_lt. unfold len in *. lia. }
      unfold bind at 1. unfold bind at 1. cbn [ret]. unfold bind at 1.
      rewrite G. reflexivity. }
  split; [exact E|]. now rewrite E.
Qed.

Lemma selection_failure_exits_before_io_witness :
  @main example_colors 0 (Args false None None None None true (Some 0) None None)
     [] fresh =
    (raise (SystemExit 1), World None [] ["No device found"]) /\
  exit_status
    (fst (@main example_colors 0
            (Args false None None None None true (Some 0) None None) [] fresh)) = 1.
Proof.
  apply (@selection_failure_exits_before_io example_colors 0
           (Args false None None None None true (Some 0) None None) []).
  - reflexivity.
  - cbn. discriminate.
Defined.
